(** * alpha_obi: order-book-imbalance signal, quoting and order management

    A shallow embedding of [src/obi_calculator.py] and [src/strategy.py],
    with the market lookup of [initialize], the half spread and [c1] of
    [src/param_calculator.py], the dictionary conversions of
    [src/config.py] and the update handler of [src/web/api.py].

    Numbers.  Python [float]s are modelled twice.  The main development
    idealises them as exact rationals ([Q]); every comparison, sum, product
    and quotient there is the exact one.  The two library calls that leave
    the rationals are kept explicit: [np.sqrt] (inside [np.nanstd]) is a
    parameter of the signal engine, and [math.log10] (inside [initialize])
    is characterised by the decimal bracket it rounds into.  What the
    exact model proves holds of the program as far as no rounding decides
    the outcome.  Module [Binary64] redoes [compute_raw_imbalance],
    [compute_alpha] and [calculate_prices] over IEEE 754 binary64 (Rocq's
    primitive floats), and the properties that rounding does decide -- the
    band rule, the signal on a constant window, the quotes next to the
    touch -- are settled there.  Python [int]s are [Z]; timestamps are
    milliseconds in [Z].

    Effects.  [OBICalculator] mutates its [history] deque, so its methods
    return the new calculator next to their outcome.  [manage_orders]
    talks to the exchange and to the logger; those calls are recorded, in
    order, as a trace of [event]s.  The answers of the two reading calls
    ([fetch_positions], [fetch_open_orders]) are inputs of the tick and may
    be a raised error; the answers of [cancel_all_orders] and
    [create_orders] are not read by the code and are not modelled. *)

From Stdlib Require Import QArith Qround Qabs Qminmax Qpower Lqa ZArith Lia.
From Stdlib Require Import List Bool.
From Stdlib Require Import Sorted.
From Stdlib Require Import Ascii String.
From Stdlib Require Import PrimFloat FloatOps SpecFloat.
From stdpp Require Import base decidable strings gmap.
Import ListNotations.

Open Scope Z_scope.
Open Scope Q_scope.

(** ** Python exceptions and fallible computations *)

Inductive exn : Type :=
| IndexError
| ZeroDivisionError
| ValueError
| TypeError
| RuntimeError
| NetworkError.

Inductive result (A : Type) : Type :=
| Ok (a : A)
| Raise (e : exn).
Arguments Ok {A} a.
Arguments Raise {A} e.

Definition bind {A B : Type} (r : result A) (k : A -> result B) : result B :=
  match r with
  | Ok a => k a
  | Raise e => Raise e
  end.

Notation "'let*' x ':=' r 'in' k" := (bind r (fun x => k))
  (at level 10, x name, r at level 100, k at level 200).

Definition is_ok {A : Type} (r : result A) : bool :=
  match r with Ok _ => true | Raise _ => false end.

(** ** Order book levels *)

(** One level of the book: [(price, qty)]. *)
Abbreviation level := (Q * Q)%type (only parsing).

(** [seq[0][0]]: the price of the first level; [IndexError] on an empty list. *)
Definition first_price (side : list level) : result Q :=
  match side with
  | [] => Raise IndexError
  | (p, _) :: _ => Ok p
  end.

(** [sum(xs)]: starts from 0 and adds the items from left to right. *)
Definition qsum (xs : list Q) : Q := fold_left Qplus xs 0.

(** ** Python's numeric built-ins on exact rationals *)

(** [x / y] on floats: [ZeroDivisionError] when [y] is zero. *)
Definition py_div (x y : Q) : result Q :=
  if Qeq_bool y 0 then Raise ZeroDivisionError else Ok (x / y).

(** [round(x)] to an [int]: nearest integer, ties to the even one. *)
Definition py_round (x : Q) : Z :=
  let f := Qfloor x in
  match Qcompare (x - inject_Z f) (1 # 2) with
  | Lt => f
  | Gt => (f + 1)%Z
  | Eq => if Z.even f then f else (f + 1)%Z
  end.

(** [float(f"{x:.{precision}f}")]: [x] rounded to [precision] decimal digits,
    ties to even; a negative precision is rejected by the format
    mini-language with [ValueError]. *)
Definition format_fixed (precision : Z) (x : Q) : result Q :=
  if (precision <? 0)%Z then Raise ValueError
  else Ok (inject_Z (py_round (x * 10 ^ precision)) / 10 ^ precision).

(** [max(a, b)] keeps [a] unless [b] is strictly larger. *)
Definition py_max (a b : Q) : Q :=
  match Qcompare a b with
  | Lt => b
  | _ => a
  end.

(** [int(round(-math.log10(t)))] for [t > 0]: the integer [p] whose decimal
    bracket [10^-(p+1/2) <= t < 10^-(p-1/2)] contains [t].  The bracket is
    compared on squares, which keeps it rational; a rational [t] never sits
    on a bracket's edge.  Candidates are tried upwards from a lower bound
    taken from the binary size of [t]. *)
Definition in_bracket_from (t : Q) (p : Z) : bool :=
  Qle_bool (10 ^ (- (2 * p + 1))) (t * t).

Definition round_neg_log10 (t : Q) : option Z :=
  let lo := (- Z.log2 (Qnum t) - 2)%Z in
  let hi := (Z.log2 (Zpos (Qden t)) + 2)%Z in
  List.find (in_bracket_from t)
    (map (fun i => (lo + Z.of_nat i)%Z) (seq 0 (Z.to_nat (hi - lo + 1)))).

(** [s.lower()] on ASCII text. *)
Definition lower_ascii (c : ascii) : ascii :=
  let n := nat_of_ascii c in
  if ((65 <=? n)%nat && (n <=? 90)%nat)%bool then ascii_of_nat (n + 32) else c.

Fixpoint lower (s : string) : string :=
  match s with
  | EmptyString => EmptyString
  | String c rest => String (lower_ascii c) (lower rest)
  end.

(** ** OBICalculator *)

Module OBICalculator.

Record t : Type := mk {
  depth : Q;
  window_ms : Z;
  history : list (Z * Q)
}.

Definition set_history (self : t) (h : list (Z * Q)) : t :=
  mk (depth self) (window_ms self) h.

(** [sum(qty for price, qty in bids if price >= lower)] *)
Definition band_bid_qty (lower : Q) (bids : list level) : Q :=
  qsum (map snd (List.filter (fun l => Qle_bool lower (fst l)) bids)).

(** [sum(qty for price, qty in asks if price <= upper)] *)
Definition band_ask_qty (upper : Q) (asks : list level) : Q :=
  qsum (map snd (List.filter (fun l => Qle_bool (fst l) upper) asks)).

(** Exact arithmetic; [Binary64.OBICalculator.compute_raw_imbalance] is the
    same code with every operation rounded. *)
Definition compute_raw_imbalance (self : t) (bids asks : list level)
  : result Q :=
  let* best_bid := first_price bids in
  let* best_ask := first_price asks in
  let mid_price := (best_bid + best_ask) / 2 in
  let lower := mid_price * (1 - depth self) in
  let upper := mid_price * (1 + depth self) in
  let sum_bid := band_bid_qty lower bids in
  let sum_ask := band_ask_qty upper asks in
  Ok (sum_bid - sum_ask).

(** [while self.history and self.history[0][0] < cutoff: popleft()] *)
Fixpoint pop_while_older (cutoff : Z) (h : list (Z * Q)) : list (Z * Q) :=
  match h with
  | [] => []
  | (ts, raw) :: rest =>
      if (ts <? cutoff)%Z then pop_while_older cutoff rest else h
  end.

Definition _purge_expired (self : t) (current_ts_ms : Z) : t :=
  let cutoff := (current_ts_ms - window_ms self)%Z in
  set_history self (pop_while_older cutoff (history self)).

(** [np.nanmean(arr)] on an array without nan entries, taken exactly;
    [Binary64.nanmean_in_order] is the rounded one. *)
Definition nanmean (arr : list Q) : Q :=
  qsum arr / inject_Z (Z.of_nat (length arr)).

(** The population variance [mean(|x - mean|^2)] that [np.nanstd] takes the
    square root of, taken exactly. *)
Definition nanvar (arr : list Q) : Q :=
  let m := nanmean arr in
  nanmean (map (fun x => (x - m) * (x - m)) arr).

Section Alpha.

(** [np.sqrt] on a float; [None] stands for nan. *)
Variable np_sqrt : Q -> option Q.

Definition nanstd (arr : list Q) : option Q := np_sqrt (nanvar arr).

(** [if s == 0 or np.isnan(s): alpha = 0.0 else: alpha = (raw - m) / s] *)
Definition standardize (raw m : Q) (s : option Q) : Q :=
  match s with
  | None => 0
  | Some sv => if Qeq_bool sv 0 then 0 else (raw - m) / sv
  end.

(** Returns the calculator after the call together with the outcome; the
    purge has already happened when [compute_raw_imbalance] raises. *)
Definition compute_alpha (self : t) (ts : Z) (bids asks : list level)
  : t * result Q :=
  let self1 := _purge_expired self ts in
  match compute_raw_imbalance self1 bids asks with
  | Raise e => (self1, Raise e)
  | Ok raw =>
      let self2 := set_history self1 (history self1 ++ [(ts, raw)]) in
      let arr := map snd (history self2) in
      let m := nanmean arr in
      let s := nanstd arr in
      (self2, Ok (standardize raw m s))
  end.

End Alpha.

End OBICalculator.

(** ** TickContext ([src/bean/types.py]) *)

Record TickContext : Type := mkTickContext {
  ts : Z;
  bids : list level;
  asks : list level;
  alpha : Q;
  mid_price : option Q;
  bid_price : option Q;
  ask_price : option Q;
  bid_tick : option Z;
  ask_tick : option Z;
  position : option Q;
  buy_qty : option Q;
  sell_qty : option Q
}.

(** [TickContext(ts=ts, bids=bids, asks=asks, alpha=alpha)] *)
Definition new_context (ts : Z) (bids asks : list level) (alpha : Q)
  : TickContext :=
  mkTickContext ts bids asks alpha None None None None None None None None.

(** ** What the exchange hands back *)

(** One entry of [fetch_positions()]; [positionAmt] is the already parsed
    [info["positionAmt"]], absent when the key is missing. *)
Record pos_info : Type := mkPosInfo {
  pos_symbol : string;
  positionAmt : option Q;
  contracts : Q;
  pos_side : string
}.

(** One entry of [fetch_open_orders(symbol)]; [order_price] is absent when
    the order carries no ["price"] key. *)
Record open_order : Type := mkOpenOrder {
  order_price : option Q;
  order_side : string
}.

(** The answers of the REST client during one tick.  A [Raise] stands for
    the call raising. *)
Record exchange : Type := mkExchange {
  fetch_positions : result (list pos_info);
  fetch_open_orders : result (list open_order)
}.

(** One item of the batch passed to [create_orders]. *)
Record order_request : Type := mkOrderRequest {
  req_symbol : string;
  req_side : string;
  req_type : string;
  req_amount : Q;
  req_price : option Q;
  req_timeInForce : string
}.

(** Calls made on the exchange and on the logger, in program order. *)
Inductive event : Type :=
| CancelAllOrders (symbol : string)
| CreateOrders (batch : list order_request)
| LogRecord (level : string) (ctx : TickContext).

(** [ctx.log()]: the summary line formats the best bid and the best ask
    with [:.2f]; on an empty side that value is [None] and the formatting
    raises [TypeError] before anything reaches the logger. *)
Definition log (ctx : TickContext) (lvl : string)
  : list event * result unit :=
  match bids ctx, asks ctx with
  | _ :: _, _ :: _ => ([LogRecord lvl ctx], Ok tt)
  | _, _ => ([], Raise TypeError)
  end.

(** ** MarketMakingStrategy *)

Module MarketMakingStrategy.

(** The fields the tick path reads.  [tick_size] and [precision] are the
    values stored by [initialize]. *)
Record t : Type := mk {
  symbol : string;
  order_qty : Q;
  c1 : Q;
  half_spread : Q;
  skew : Q;
  tick_size : Q;
  precision : Z
}.

(** Steps 4 and 5 of [initialize], from the tick size resolved out of the
    market metadata: reject a non-positive tick size, derive the price
    precision, store both. *)
Definition initialize (self : t) (resolved_tick_size : Q) : result t :=
  if Qle_bool resolved_tick_size 0 then Raise RuntimeError
  else
    let precision :=
      match round_neg_log10 resolved_tick_size with
      | Some p => p
      | None => 8%Z
      end in
    Ok (mk (symbol self) (order_qty self) (c1 self) (half_spread self)
           (skew self) resolved_tick_size precision).

(** The loop over [all_positions]: the first entry for [self.symbol]
    decides, then [break]. *)
Fixpoint current_position (self : t) (all_positions : list pos_info) : Q :=
  match all_positions with
  | [] => 0
  | p :: rest =>
      if String.eqb (pos_symbol p) (symbol self) then
        match positionAmt p with
        | Some raw_amt => raw_amt
        | None =>
            let cnt := contracts p in
            if String.eqb (lower (pos_side p)) "short" then - cnt else cnt
        end
      else current_position self rest
  end.

(** [bids[0][0] if bids else 0.0] *)
Definition best_or_zero (side : list level) : Q :=
  match side with
  | [] => 0
  | (p, _) :: _ => p
  end.

(** Exact arithmetic; [Binary64.MarketMakingStrategy.calculate_prices] is
    the same code with every operation rounded. *)
Definition calculate_prices (self : t) (ex : exchange) (ctx : TickContext)
  : result TickContext :=
  let best_bid := best_or_zero (bids ctx) in
  let best_ask := best_or_zero (asks ctx) in
  let mid := (best_bid + best_ask) / 2 in
  let fair_price := mid + c1 self * alpha ctx in
  let* all_positions := fetch_positions ex in
  let pos := current_position self all_positions in
  let normalized_position :=
    if Qeq_bool (order_qty self) 0 then 0 else pos / order_qty self in
  let reservation_price := fair_price - skew self * normalized_position in
  let raw_bid_price := reservation_price - half_spread self in
  let raw_bid_price :=
    if Qle_bool best_bid raw_bid_price then best_bid - tick_size self
    else raw_bid_price in
  let raw_ask_price := reservation_price + half_spread self in
  let raw_ask_price :=
    if Qle_bool raw_ask_price best_ask then best_ask + tick_size self
    else raw_ask_price in
  let* bid_ratio := py_div raw_bid_price (tick_size self) in
  let btick := Qfloor bid_ratio in
  let* ask_ratio := py_div raw_ask_price (tick_size self) in
  let atick := Qceiling ask_ratio in
  let bprice := inject_Z btick * tick_size self in
  let aprice := inject_Z atick * tick_size self in
  let* bprice := format_fixed (precision self) bprice in
  let* aprice := format_fixed (precision self) aprice in
  Ok (mkTickContext (ts ctx) (bids ctx) (asks ctx) (alpha ctx)
        (Some mid) (Some bprice) (Some aprice) (Some btick) (Some atick)
        (Some pos) (buy_qty ctx) (sell_qty ctx)).

(** The loop that fills [existing_buy_ticks] and [existing_sell_ticks]. *)
Fixpoint existing_ticks (self : t) (open_orders : list open_order)
  (buy_ticks sell_ticks : gset Z) : result (gset Z * gset Z) :=
  match open_orders with
  | [] => Ok (buy_ticks, sell_ticks)
  | order :: rest =>
      let price := match order_price order with Some p => p | None => 0 end in
      let* ratio := py_div price (tick_size self) in
      let tick := py_round ratio in
      if String.eqb (order_side order) "buy" then
        existing_ticks self rest ({[ tick ]} ∪ buy_ticks) sell_ticks
      else if String.eqb (order_side order) "sell" then
        existing_ticks self rest buy_ticks ({[ tick ]} ∪ sell_ticks)
      else existing_ticks self rest buy_ticks sell_ticks
  end.

(** [tick not in ticks]; a missing tick ([None]) is in no set of ints. *)
Definition not_in (tick : option Z) (ticks : gset Z) : bool :=
  match tick with
  | Some k => negb (bool_decide (k ∈ ticks))
  | None => true
  end.

(** The sizes left to quote on each side, given the position. *)
Definition desired_qty (self : t) (pos : Q) : Q * Q :=
  if Qlt_le_dec 0 pos then
    (py_max (order_qty self - pos) 0, order_qty self)
  else if Qlt_le_dec pos 0 then
    (order_qty self, py_max (order_qty self - Qabs pos) 0)
  else (order_qty self, order_qty self).

Definition limit_order (self : t) (side : string) (amount : Q)
  (price : option Q) : order_request :=
  mkOrderRequest (symbol self) side "limit" amount price "GTC".

(** [try: open_orders = await fetch_open_orders(symbol)]
    [except Exception: open_orders = []] *)
Definition open_orders_or_empty (ex : exchange) : list open_order :=
  match fetch_open_orders ex with
  | Ok orders => orders
  | Raise _ => []
  end.

Definition manage_orders (self : t) (ex : exchange) (ctx : TickContext)
  : list event * result TickContext :=
  let open_orders := open_orders_or_empty ex in
  match existing_ticks self open_orders ∅ ∅ with
  | Raise e => ([], Raise e)
  | Ok (existing_buy_ticks, existing_sell_ticks) =>
      match position ctx with
      | None => ([], Raise TypeError)
      | Some pos =>
          let '(bqty, sqty) := desired_qty self pos in
          let to_create :=
            (if (not_in (bid_tick ctx) existing_buy_ticks
                 && negb (Qle_bool bqty 0))%bool
             then [limit_order self "buy" bqty (bid_price ctx)] else [])
            ++
            (if (not_in (ask_tick ctx) existing_sell_ticks
                 && negb (Qle_bool sqty 0))%bool
             then [limit_order self "sell" sqty (ask_price ctx)] else [])
          in
          match to_create with
          | [] => ([], Ok ctx)
          | _ :: _ =>
              let ctx' :=
                mkTickContext (ts ctx) (bids ctx) (asks ctx) (alpha ctx)
                  (mid_price ctx) (bid_price ctx) (ask_price ctx)
                  (bid_tick ctx) (ask_tick ctx) (position ctx)
                  (Some bqty) (Some sqty) in
              let '(logged, outcome) := log ctx' "INFO" in
              (CancelAllOrders (symbol self) :: CreateOrders to_create
                 :: logged,
               let* _ := outcome in Ok ctx')
          end
      end
  end.

Definition on_tick (self : t) (ex : exchange) (ts : Z)
  (bids asks : list level) (alpha : Q) : list event * result unit :=
  let ctx := new_context ts bids asks alpha in
  match calculate_prices self ex ctx with
  | Raise e => ([], Raise e)
  | Ok ctx =>
      let '(trace, outcome) := manage_orders self ex ctx in
      (trace, let* _ := outcome in Ok tt)
  end.

End MarketMakingStrategy.


(** ** The specification's vocabulary *)

(** The band rule, written the way the specification words it: the sum of
    the quantities of the levels whose price passes the test. *)
Fixpoint sum_where (keep : Q -> bool) (side : list level) : Q :=
  match side with
  | [] => 0
  | (price, qty) :: rest =>
      if keep price then qty + sum_where keep rest else sum_where keep rest
  end.

Definition spec_raw_imbalance (depth best_bid best_ask : Q)
  (bids asks : list level) : Q :=
  let mid := (best_bid + best_ask) / 2 in
  sum_where (fun p => Qle_bool (mid * (1 - depth)) p) bids
  - sum_where (fun p => Qle_bool p (mid * (1 + depth))) asks.

(** The specification's name for the failure on an empty book side.  In
    the code it is the [IndexError] of [bids[0][0]] or [asks[0][0]]. *)
Definition InsufficientDepthError : exn := IndexError.

(** The window is time-ordered: timestamps never decrease from the oldest
    sample to the newest. *)
Definition time_ordered (h : list (Z * Q)) : Prop :=
  StronglySorted (fun s1 s2 => (fst s1 <= fst s2)%Z) h.

(** Every retained sample is at most [window_ms] older than [now]. *)
Definition within_window (self : OBICalculator.t) (now : Z) : Prop :=
  Forall (fun s => (now - OBICalculator.window_ms self <= fst s)%Z)
    (OBICalculator.history self).

(** A square root that is exact on squares of rationals and nan below zero;
    it instantiates [np_sqrt] in the worked examples. *)
Definition exact_sqrt (q : Q) : option Q :=
  if Qle_bool 0 q then Some (Z.sqrt (Qnum q) # Pos.sqrt (Qden q)) else None.

(** A run of the streamer: [compute_alpha] on each snapshot in turn, the
    calculator carried along; the signals are dropped. *)
Fixpoint observe_all (np_sqrt : Q -> option Q) (self : OBICalculator.t)
  (snapshots : list (Z * (list level * list level))) : OBICalculator.t :=
  match snapshots with
  | [] => self
  | (ts, (bids, asks)) :: rest =>
      observe_all np_sqrt
        (fst (OBICalculator.compute_alpha np_sqrt self ts bids asks)) rest
  end.

(** The book of the specification's worked example. *)
Definition example_bids : list level := [(100, 2); (99, 3)].
Definition example_asks : list level := [(101, 1); (102, 4)].

(** A calculator with a 30 ms window and an empty history, and three
    snapshots whose second one carries an older timestamp. *)
Definition short_window : OBICalculator.t :=
  OBICalculator.mk (25 # 1000) 30 [].

Definition out_of_order_run : list (Z * (list level * list level)) :=
  [ (100%Z, (example_bids, example_asks));
    (50%Z, (example_bids, example_asks));
    (120%Z, (example_bids, example_asks)) ].

(** The order actions of the specification, and the actions a trace of
    exchange calls amounts to: a batch passed to [create_orders] is one
    create action per item, log records are no action. *)
Inductive OrderAction : Type :=
| CancelAll (symbol : string)
| CreateBuy (price : option Q) (qty : Q)
| CreateSell (price : option Q) (qty : Q).

Definition action_of_request (r : order_request) : list OrderAction :=
  if String.eqb (req_side r) "buy" then [CreateBuy (req_price r) (req_amount r)]
  else if String.eqb (req_side r) "sell"
       then [CreateSell (req_price r) (req_amount r)]
       else [].

Definition actions_of_event (e : event) : list OrderAction :=
  match e with
  | CancelAllOrders sym => [CancelAll sym]
  | CreateOrders batch => flat_map action_of_request batch
  | LogRecord _ _ => []
  end.

Definition actions_of (trace : list event) : list OrderAction :=
  flat_map actions_of_event trace.


(** A log record of level WARNING. *)
Definition is_warning (e : event) : bool :=
  match e with
  | LogRecord lvl _ => String.eqb lvl "WARNING"
  | _ => false
  end.

(** The resting orders after the exchange has carried out a trace:
    [cancel_all_orders] empties the book, [create_orders] adds one resting
    order per item of the batch. *)
Definition resting_of_request (r : order_request) : open_order :=
  mkOpenOrder (req_price r) (req_side r).

Fixpoint book_after (trace : list event) (book : list open_order)
  : list open_order :=
  match trace with
  | [] => book
  | CancelAllOrders _ :: rest => book_after rest []
  | CreateOrders batch :: rest =>
      book_after rest (book ++ map resting_of_request batch)
  | LogRecord _ _ :: rest => book_after rest book
  end.

(** The rounding to [precision] decimals leaves every multiple of the tick
    size where it is: the tick size is a whole number of units of
    [10^-precision].  Decimal tick sizes [10^-p] with precision [p] are of
    this kind. *)
Definition decimal_grid (self : MarketMakingStrategy.t) : Prop :=
  (0 <= MarketMakingStrategy.precision self)%Z
  /\ exists k : Z,
       MarketMakingStrategy.tick_size self
       * 10 ^ MarketMakingStrategy.precision self == inject_Z k.

(** The strategy of the specification's worked example (tick size 0.1, one
    decimal), before and after [initialize]. *)
Definition example_params : MarketMakingStrategy.t :=
  MarketMakingStrategy.mk "BTC/USDT" 1 2 (1 # 2) (1 # 10) 0 0.

Definition example_strategy : MarketMakingStrategy.t :=
  MarketMakingStrategy.mk "BTC/USDT" 1 2 (1 # 2) (1 # 10) (1 # 10) 1.

(** The same parameters on a market whose tick size is 0.5. *)
Definition half_tick_strategy : MarketMakingStrategy.t :=
  MarketMakingStrategy.mk "BTC/USDT" 1 2 (1 # 2) (1 # 10) (1 # 2) 0.

(** A flat account with nothing resting. *)
Definition quiet_exchange : exchange := mkExchange (Ok []) (Ok []).

(** The quote target of the worked example: bid 99.9 at tick 999, ask 101.1
    at tick 1011, position 0. *)
Definition example_target : TickContext :=
  mkTickContext 0 example_bids example_asks 0
    (Some (201 # 2)) (Some (999 # 10)) (Some (1011 # 10))
    (Some 999%Z) (Some 1011%Z) (Some 0) None None.

(** Only the buy order of the target is resting. *)
Definition buy_resting : list open_order :=
  [ mkOpenOrder (Some (999 # 10)) "buy" ].

(** The open orders cannot be fetched. *)
Definition fetch_fails : exchange := mkExchange (Ok []) (Raise NetworkError).

(** ** The rest of the tick path's surroundings *)

(** [int(x)] on a float: truncation toward zero. *)
Definition py_int (x : Q) : Z :=
  if Qle_bool 0 x then Qfloor x else Qceiling x.

(** [OBICalculator.__init__]: the window length in milliseconds and an empty
    history. *)
Definition OBICalculator_init (depth window_minutes : Q) : OBICalculator.t :=
  OBICalculator.mk depth (py_int (window_minutes * 60 * 1000)) [].

(** *** Market metadata read by [initialize] *)

Module Markets.

(** One entry of [info['filters']].  [tickSize] is the float its value
    converts to, [None] when the key is missing or [float(...)] raises: in
    both cases the code is left with 0.0. *)
Record market_filter : Type := mkFilter {
  filterType : option string;
  tickSize : option Q
}.

(** An entry of [load_markets()].  [filters] is absent when
    [info.get('filters')] is not a list.  [precision_price] and
    [pricePrecision] are absent when the key is missing or [None]; when
    present they hold what [int(...)] makes of the value, [None] when that
    conversion raises. *)
Record market : Type := mkMarket {
  filters : option (list market_filter);
  precision_price : option (option Z);
  pricePrecision : option (option Z)
}.

(** Step 1: the first [PRICE_FILTER] entry decides, then [break]. *)
Fixpoint tick_from_filters (fs : list market_filter) : Q :=
  match fs with
  | [] => 0
  | f :: rest =>
      match filterType f with
      | Some ty =>
          if String.eqb ty "PRICE_FILTER"
          then match tickSize f with Some q => q | None => 0 end
          else tick_from_filters rest
      | None => tick_from_filters rest
      end
  end.

(** Steps 2 and 3: [1.0 / (10 ** int(p))] when the running tick size is not
    positive and the precision is present; 0.0 when [int(p)] raises. *)
Definition tick_from_precision (tick_size : Q) (p : option (option Z)) : Q :=
  if Qle_bool tick_size 0 then
    match p with
    | Some (Some digits) => 1 / 10 ^ digits
    | Some None => 0
    | None => tick_size
    end
  else tick_size.

(** Steps 1 to 3 of [initialize]. *)
Definition resolve_tick_size (m : market) : Q :=
  let tick_size :=
    match filters m with
    | Some fs => tick_from_filters fs
    | None => 0
    end in
  let tick_size := tick_from_precision tick_size (precision_price m) in
  tick_from_precision tick_size (pricePrecision m).

(** [initialize] once [load_markets()] has returned the market table:
    [ValueError] for a symbol the table does not list, then steps 1 to 5. *)
Definition initialize (self : MarketMakingStrategy.t)
  (markets : gmap string market) : result MarketMakingStrategy.t :=
  match markets !! MarketMakingStrategy.symbol self with
  | None => Raise ValueError
  | Some m => MarketMakingStrategy.initialize self (resolve_tick_size m)
  end.

End Markets.

(** *** [src/param_calculator.py] *)

Module MarketMakerParamCalculatorV2.

Record MarketData : Type := mkMarketData {
  best_bid : Q;
  best_ask : Q;
  maker_fee : Q;
  taker_fee : Q;
  tick_size : Q
}.

Record t : Type := mk {
  market_data : MarketData;
  order_qty : Q;
  alpha_std : Q;
  epsilon_profit : Q
}.

(** The fee and profit floor that [calculate_half_spread] rounds up. *)
Definition min_half_spread (self : t) : result Q :=
  let mid_price :=
    (best_bid (market_data self) + best_ask (market_data self)) / 2 in
  let total_fee := maker_fee (market_data self) + taker_fee (market_data self) in
  let* profit := py_div (epsilon_profit self) (2 * order_qty self) in
  Ok (mid_price * total_fee / 2 + profit).

Definition calculate_half_spread (self : t) : result Q :=
  let* floor_level := min_half_spread self in
  let* ratio := py_div floor_level (tick_size (market_data self)) in
  Ok (inject_Z (Qceiling ratio) * tick_size (market_data self)).

Definition calculate_c1 (self : t) (half_spread : Q) : result Q :=
  let* inverse := py_div 1 (alpha_std self) in
  Ok (half_spread * (1 + inverse)).

End MarketMakerParamCalculatorV2.

(** *** [src/config.py] and the update handler of [src/web/api.py] *)

(** A decoded JSON value; lists and objects are not told apart. *)
Inductive json : Type :=
| JNull
| JBool (b : bool)
| JInt (z : Z)
| JFloat (q : Q)
| JStr (s : string)
| JComposite.

Inductive config_error : Type :=
| KeyError (key : string)
| ConvTypeError
| ConvValueError.

Module StrategyConfig.

(** [symbol] and [sandbox_mode] are stored as found, without conversion. *)
Record t : Type := mk {
  symbol : json;
  order_qty : Q;
  c1 : Q;
  half_spread : Q;
  skew : Q;
  limit : Z;
  depth : Q;
  window_minutes : Q;
  api_key : string;
  secret : string;
  price_delta_threshold : Q;
  sandbox_mode : json
}.

Definition cbind {A B : Type} (r : config_error + A)
  (k : A -> config_error + B) : config_error + B :=
  match r with
  | inl e => inl e
  | inr a => k a
  end.

(** [data[key]] *)
Definition item (data : gmap string json) (key : string)
  : config_error + json :=
  match data !! key with
  | Some v => inr v
  | None => inl (KeyError key)
  end.

(** [data.get(key, fallback)] *)
Definition get (data : gmap string json) (key : string) (fallback : json)
  : json :=
  match data !! key with
  | Some v => v
  | None => fallback
  end.

Section Conversions.

(** What [float(s)], [int(s)] make of a string ([None]: [ValueError]) and
    what [str(v)] prints for a value that is not a string. *)
Variable parse_float : string -> option Q.
Variable parse_int : string -> option Z.
Variable py_repr : json -> string.

Definition float_of (v : json) : config_error + Q :=
  match v with
  | JFloat q => inr q
  | JInt z => inr (inject_Z z)
  | JBool b => inr (if b then 1 else 0)
  | JStr s =>
      match parse_float s with
      | Some q => inr q
      | None => inl ConvValueError
      end
  | JNull | JComposite => inl ConvTypeError
  end.

Definition int_of (v : json) : config_error + Z :=
  match v with
  | JInt z => inr z
  | JFloat q => inr (py_int q)
  | JBool b => inr (if b then 1%Z else 0%Z)
  | JStr s =>
      match parse_int s with
      | Some z => inr z
      | None => inl ConvValueError
      end
  | JNull | JComposite => inl ConvTypeError
  end.

Definition str_of (v : json) : string :=
  match v with
  | JStr s => s
  | _ => py_repr v
  end.

(** The keyword arguments are evaluated in the order they are written. *)
Definition from_dict (data : gmap string json) : config_error + t :=
  cbind (item data "symbol") (fun symbol =>
  cbind (cbind (item data "order_qty") float_of) (fun order_qty =>
  cbind (cbind (item data "c1") float_of) (fun c1 =>
  cbind (cbind (item data "half_spread") float_of) (fun half_spread =>
  cbind (cbind (item data "skew") float_of) (fun skew =>
  cbind (cbind (item data "limit") int_of) (fun limit =>
  cbind (cbind (item data "depth") float_of) (fun depth =>
  cbind (cbind (item data "window_minutes") float_of) (fun window_minutes =>
  let api_key := str_of (get data "api_key" (JStr "")) in
  let secret := str_of (get data "secret" (JStr "")) in
  cbind (float_of (get data "price_delta_threshold" (JFloat (1 # 2))))
    (fun price_delta_threshold =>
  let sandbox_mode := get data "sandbox_mode" (JBool true) in
  inr (mk symbol order_qty c1 half_spread skew limit depth window_minutes
         api_key secret price_delta_threshold sandbox_mode)))))))))).

End Conversions.

Definition to_dict (self : t) : gmap string json :=
  list_to_map
    [ ("symbol", symbol self);
      ("order_qty", JFloat (order_qty self));
      ("c1", JFloat (c1 self));
      ("half_spread", JFloat (half_spread self));
      ("skew", JFloat (skew self));
      ("limit", JInt (limit self));
      ("depth", JFloat (depth self));
      ("window_minutes", JFloat (window_minutes self));
      ("api_key", JStr (api_key self));
      ("secret", JStr (secret self));
      ("price_delta_threshold", JFloat (price_delta_threshold self));
      ("sandbox_mode", sandbox_mode self) ].

End StrategyConfig.

(** The validated request body of [PUT /config]; it has no [sandbox_mode]
    field. *)
Module StrategyConfigModel.

Record t : Type := mk {
  symbol : string;
  order_qty : Q;
  c1 : Q;
  half_spread : Q;
  skew : Q;
  limit : Z;
  depth : Q;
  window_minutes : Q;
  api_key : string;
  secret : string;
  price_delta_threshold : Q
}.

(** [new_cfg.dict()] *)
Definition dict (self : t) : gmap string json :=
  list_to_map
    [ ("symbol", JStr (symbol self));
      ("order_qty", JFloat (order_qty self));
      ("c1", JFloat (c1 self));
      ("half_spread", JFloat (half_spread self));
      ("skew", JFloat (skew self));
      ("limit", JInt (limit self));
      ("depth", JFloat (depth self));
      ("window_minutes", JFloat (window_minutes self));
      ("api_key", JStr (api_key self));
      ("secret", JStr (secret self));
      ("price_delta_threshold", JFloat (price_delta_threshold self)) ].

End StrategyConfigModel.

(** [update_config]: the new global configuration, the dictionary dumped to
    the configuration file, and the response. *)
Definition update_config (parse_float : string -> option Q)
  (parse_int : string -> option Z) (py_repr : json -> string)
  (new_cfg : StrategyConfigModel.t)
  : config_error
    + (StrategyConfig.t * gmap string json * StrategyConfigModel.t) :=
  StrategyConfig.cbind
    (StrategyConfig.from_dict parse_float parse_int py_repr
       (StrategyConfigModel.dict new_cfg))
    (fun config => inr (config, StrategyConfig.to_dict config, new_cfg)).

(** An order request as [manage_orders] means to build it: a GTC limit
    order on the strategy's symbol, on one of the two sides, for a positive
    amount. *)
Definition well_formed_request (self : MarketMakingStrategy.t)
  (r : order_request) : Prop :=
  req_symbol r = MarketMakingStrategy.symbol self
  /\ req_type r = "limit"
  /\ req_timeInForce r = "GTC"
  /\ 0 < req_amount r
  /\ (req_side r = "buy" \/ req_side r = "sell").

(** The context with another timestamp. *)
Definition with_ts (now : Z) (ctx : TickContext) : TickContext :=
  mkTickContext now (bids ctx) (asks ctx) (alpha ctx) (mid_price ctx)
    (bid_price ctx) (ask_price ctx) (bid_tick ctx) (ask_tick ctx)
    (position ctx) (buy_qty ctx) (sell_qty ctx).


(** ** The same arithmetic in binary64 *)

(** Where an outcome hinges on rounding, the exact model and the program
    part ways.  This module redoes the signal and the pricing over IEEE 754
    binary64, Rocq's primitive floats, one operation of the interpreter at a
    time. *)

Module Binary64.

(** The rational a finite float stands for; [None] for an infinity and for
    nan. *)
Definition exact_value (x : float) : option Q :=
  match Prim2SF x with
  | S754_zero _ => Some 0
  | S754_finite s m e =>
      Some ((if s then - inject_Z (Zpos m) else inject_Z (Zpos m)) * 2 ^ e)
  | _ => None
  end.

(** The float nearest to a rational, ties to the even mantissa: what
    [float(s)] makes of a decimal numeral [s] and [float(k)] of an [int].
    The quotient is taken to 64 bits or more, the rest folded into a last
    sticky bit, and the whole rounded to 53 bits. *)
Definition nearest_float (q : Q) : float :=
  match Qnum q with
  | Z0 => PrimFloat.zero
  | n =>
      let a := Z.abs n in
      let d := Zpos (Qden q) in
      let k := (Z.log2 d - Z.log2 a + 64)%Z in
      let num := if (0 <=? k)%Z then (a * 2 ^ k)%Z else a in
      let den := if (0 <=? k)%Z then d else (d * 2 ^ (- k))%Z in
      let sticky := if (num mod den =? 0)%Z then 0%Z else 1%Z in
      let m := (2 * (num / den) + sticky)%Z in
      SF2Prim (binary_normalize prec emax
                 (if (n <? 0)%Z then (- m)%Z else m) (- k - 1) false)
  end.

(** The float of the decimal numeral [n / d]. *)
Definition decimal (n : Z) (d : positive) : float := nearest_float (n # d).

(** [float(k)] on an [int]. *)
Definition of_int (k : Z) : float := nearest_float (inject_Z k).

(** The failures of the pricing: those of the exact model and the
    [OverflowError] of [math.floor] and [math.ceil] on an infinity. *)
Inductive error : Type :=
| Python (e : exn)
| OverflowError.

Definition ebind {A B : Type} (r : error + A) (k : A -> error + B)
  : error + B :=
  match r with
  | inl e => inl e
  | inr a => k a
  end.

Notation "'let+' x ':=' r 'in' k" := (ebind r (fun x => k))
  (at level 10, x name, r at level 100, k at level 200).

(** [x / y] on floats: [ZeroDivisionError] when [y] is a zero of either
    sign. *)
Definition py_div (x y : float) : error + float :=
  if (y =? 0)%float then inl (Python ZeroDivisionError) else inr (x / y)%float.

(** [math.floor(x)] and [math.ceil(x)]: an [int]; [ValueError] on nan,
    [OverflowError] on an infinity. *)
Definition py_floor (x : float) : error + Z :=
  match exact_value x with
  | Some q => inr (Qfloor q)
  | None => inl (if is_nan x then Python ValueError else OverflowError)
  end.

Definition py_ceil (x : float) : error + Z :=
  match exact_value x with
  | Some q => inr (Qceiling q)
  | None => inl (if is_nan x then Python ValueError else OverflowError)
  end.

(** [float(f"{x:.{precision}f}")]: the exact value of [x] rounded to
    [precision] decimals, ties to even, and the numeral read back; a zero
    keeps the sign of [x], an infinity and nan print and read back as
    themselves. *)
Definition format_fixed (precision : Z) (x : float) : error + float :=
  if (precision <? 0)%Z then inl (Python ValueError)
  else
    match exact_value x with
    | None => inr x
    | Some q =>
        let k := py_round (q * 10 ^ precision) in
        if (k =? 0)%Z then inr (if get_sign x then neg_zero else zero)
        else inr (nearest_float (inject_Z k / 10 ^ precision))
    end.

(** One level of the book, [(price, qty)], and the price of the first
    level. *)
Definition first_price (side : list (float * float)) : result float :=
  match side with
  | [] => Raise IndexError
  | (p, _) :: _ => Ok p
  end.

(** *** OBICalculator *)

Module OBICalculator.

Record t : Type := mk {
  depth : float;
  window_ms : Z;
  history : list (Z * float)
}.

Definition set_history (self : t) (h : list (Z * float)) : t :=
  mk (depth self) (window_ms self) h.

Section Libraries.

(** The built-in [sum] on a list of floats, as a float: 0.0 on the empty
    list.  How it accumulates depends on the interpreter (in order up to
    CPython 3.11, with a compensation term since). *)
Variable py_sum : list float -> float.

(** [np.nanmean] and [np.nanstd] on a one-dimensional array of floats. *)
Variable np_nanmean : list float -> float.
Variable np_nanstd : list float -> float.

Definition compute_raw_imbalance (self : t) (bids asks : list (float * float))
  : result float :=
  let* best_bid := first_price bids in
  let* best_ask := first_price asks in
  let mid_price := ((best_bid + best_ask) / 2)%float in
  let lower := (mid_price * (1 - depth self))%float in
  let upper := (mid_price * (1 + depth self))%float in
  let sum_bid :=
    py_sum (map snd (List.filter (fun l => (lower <=? fst l)%float) bids)) in
  let sum_ask :=
    py_sum (map snd (List.filter (fun l => (fst l <=? upper)%float) asks)) in
  Ok (sum_bid - sum_ask)%float.

Fixpoint pop_while_older (cutoff : Z) (h : list (Z * float))
  : list (Z * float) :=
  match h with
  | [] => []
  | (ts, raw) :: rest =>
      if (ts <? cutoff)%Z then pop_while_older cutoff rest else h
  end.

Definition _purge_expired (self : t) (current_ts_ms : Z) : t :=
  let cutoff := (current_ts_ms - window_ms self)%Z in
  set_history self (pop_while_older cutoff (history self)).

Definition compute_alpha (self : t) (ts : Z) (bids asks : list (float * float))
  : t * result float :=
  let self1 := _purge_expired self ts in
  match compute_raw_imbalance self1 bids asks with
  | Raise e => (self1, Raise e)
  | Ok raw =>
      let self2 := set_history self1 (history self1 ++ [(ts, raw)]) in
      let arr := map snd (history self2) in
      let m := np_nanmean arr in
      let s := np_nanstd arr in
      (self2,
       Ok (if ((s =? 0)%float || is_nan s)%bool then 0%float
           else ((raw - m) / s)%float))
  end.

End Libraries.

End OBICalculator.

(** [sum] as CPython up to 3.11 runs it: from 0, one addition per item, in
    order.  Later versions return the same float whenever no addition
    rounds. *)
Definition sum_in_order (xs : list float) : float :=
  fold_left PrimFloat.add xs 0%float.

(** [np.nanmean] and [np.nanstd] on an array of fewer than eight floats,
    none of them nan: numpy adds such an array up in order, divides by the
    count, and for the deviation does the same with the squared distances
    to the mean before taking the root. *)
Definition nanmean_in_order (arr : list float) : float :=
  (sum_in_order arr / of_int (Z.of_nat (length arr)))%float.

Definition nanstd_in_order (arr : list float) : float :=
  let m := nanmean_in_order arr in
  PrimFloat.sqrt
    (nanmean_in_order (map (fun x => ((x - m) * (x - m))%float) arr)).

(** *** MarketMakingStrategy *)

Record TickContext : Type := mkTickContext {
  ts : Z;
  bids : list (float * float);
  asks : list (float * float);
  alpha : float;
  mid_price : option float;
  bid_price : option float;
  ask_price : option float;
  bid_tick : option Z;
  ask_tick : option Z;
  position : option float;
  buy_qty : option float;
  sell_qty : option float
}.

Definition new_context (ts : Z) (bids asks : list (float * float))
  (alpha : float) : TickContext :=
  mkTickContext ts bids asks alpha None None None None None None None None.

Record pos_info : Type := mkPosInfo {
  pos_symbol : string;
  positionAmt : option float;
  contracts : float;
  pos_side : string
}.

Module MarketMakingStrategy.

Record t : Type := mk {
  symbol : string;
  order_qty : float;
  c1 : float;
  half_spread : float;
  skew : float;
  tick_size : float;
  precision : Z
}.

Fixpoint current_position (self : t) (all_positions : list pos_info) : float :=
  match all_positions with
  | [] => 0%float
  | p :: rest =>
      if String.eqb (pos_symbol p) (symbol self) then
        match positionAmt p with
        | Some raw_amt => raw_amt
        | None =>
            let cnt := contracts p in
            if String.eqb (lower (pos_side p)) "short" then (- cnt)%float
            else cnt
        end
      else current_position self rest
  end.

Definition best_or_zero (side : list (float * float)) : float :=
  match side with
  | [] => 0%float
  | (p, _) :: _ => p
  end.

(** [all_positions] is the answer of [fetch_positions()]. *)
Definition calculate_prices (self : t) (all_positions : result (list pos_info))
  (ctx : TickContext) : error + TickContext :=
  let best_bid := best_or_zero (bids ctx) in
  let best_ask := best_or_zero (asks ctx) in
  let mid := ((best_bid + best_ask) / 2)%float in
  let fair_price := (mid + c1 self * alpha ctx)%float in
  match all_positions with
  | Raise e => inl (Python e)
  | Ok all_positions =>
      let pos := current_position self all_positions in
      let normalized_position :=
        if (order_qty self =? 0)%float then 0%float
        else (pos / order_qty self)%float in
      let reservation_price :=
        (fair_price - skew self * normalized_position)%float in
      let raw_bid_price := (reservation_price - half_spread self)%float in
      let raw_bid_price :=
        if (best_bid <=? raw_bid_price)%float
        then (best_bid - tick_size self)%float
        else raw_bid_price in
      let raw_ask_price := (reservation_price + half_spread self)%float in
      let raw_ask_price :=
        if (raw_ask_price <=? best_ask)%float
        then (best_ask + tick_size self)%float
        else raw_ask_price in
      let+ bid_ratio := py_div raw_bid_price (tick_size self) in
      let+ btick := py_floor bid_ratio in
      let+ ask_ratio := py_div raw_ask_price (tick_size self) in
      let+ atick := py_ceil ask_ratio in
      let bprice := (of_int btick * tick_size self)%float in
      let aprice := (of_int atick * tick_size self)%float in
      let+ bprice := format_fixed (precision self) bprice in
      let+ aprice := format_fixed (precision self) aprice in
      inr (mkTickContext (ts ctx) (bids ctx) (asks ctx) (alpha ctx)
             (Some mid) (Some bprice) (Some aprice) (Some btick) (Some atick)
             (Some pos) (buy_qty ctx) (sell_qty ctx))
  end.

End MarketMakingStrategy.

(** *** The book taken exactly *)

(** The book a book of floats stands for, taken exactly. *)
Definition exact_level (l : float * float) : level :=
  (default 0 (exact_value (fst l)), default 0 (exact_value (snd l))).

Definition exact_book (side : list (float * float)) : list level :=
  map exact_level side.

(** The band rule taken exactly, on the rationals the floats of the book
    and of the depth stand for. *)
Definition exact_band_rule (self : OBICalculator.t)
  (bids asks : list (float * float)) : Q :=
  match exact_book bids, exact_book asks with
  | (best_bid, _) :: _, (best_ask, _) :: _ =>
      spec_raw_imbalance
        (default 0 (exact_value (OBICalculator.depth self)))
        best_bid best_ask (exact_book bids) (exact_book asks)
  | _, _ => 0
  end.

(** *** The band rule, in the specification's words *)

(** The quantities of the levels whose price passes the test. *)
Fixpoint quantities_where (keep : float -> bool) (side : list (float * float))
  : list float :=
  match side with
  | [] => []
  | (price, qty) :: rest =>
      if keep price then qty :: quantities_where keep rest
      else quantities_where keep rest
  end.

(** The sum of the bid quantities priced at or above [mid * (1 - depth)]
    less the sum of the ask quantities priced at or below
    [mid * (1 + depth)], every operation rounded to binary64. *)
Definition spec_raw_imbalance (py_sum : list float -> float)
  (depth best_bid best_ask : float) (bids asks : list (float * float))
  : float :=
  let mid := ((best_bid + best_ask) / 2)%float in
  (py_sum (quantities_where (fun p => (mid * (1 - depth) <=? p)%float) bids)
   - py_sum (quantities_where (fun p => (p <=? mid * (1 + depth))%float) asks))
  %float.

(** The floats a book of decimal numerals is read as. *)
Definition read_book (side : list level) : list (float * float) :=
  map (fun l => (nearest_float (fst l), nearest_float (snd l))) side.

(** *** Worked inputs *)

(** The default calculator: depth 0.025, a window of ten minutes. *)
Definition fresh_calculator : OBICalculator.t :=
  OBICalculator.mk (decimal 25 1000) 600000 [].

(** A book that does not move: 0.2 bid at 100.0, 0.1 offered at 100.1. *)
Definition steady_bids : list (float * float) :=
  [ (decimal 100 1, decimal 2 10) ].
Definition steady_asks : list (float * float) :=
  [ (decimal 1001 10, decimal 1 10) ].

(** [compute_alpha] with the library calls as they run on a short window,
    and a run of it over a stream of snapshots: the calculator at the end
    and the signals in order. *)
Definition observe (self : OBICalculator.t) (now : Z)
  (bids asks : list (float * float)) : OBICalculator.t * result float :=
  OBICalculator.compute_alpha sum_in_order nanmean_in_order nanstd_in_order
    self now bids asks.

Fixpoint observe_all (self : OBICalculator.t)
  (snapshots : list (Z * (list (float * float) * list (float * float))))
  : OBICalculator.t * list (result float) :=
  match snapshots with
  | [] => (self, [])
  | (now, (bids, asks)) :: rest =>
      let '(self1, signal) := observe self now bids asks in
      let '(self2, signals) := observe_all self1 rest in
      (self2, signal :: signals)
  end.

(** Three decimal books with the default depth 0.025: an ask at 12.3 with
    mid 12.0, a bid at 11.7 with mid 12.0, and one level a side with
    quantities 100.1 and 0.3. *)
Definition upper_edge_bids : list level := [ (1199 # 100, 1) ].
Definition upper_edge_asks : list level := [ (1201 # 100, 1); (123 # 10, 5) ].

Definition lower_edge_bids : list level := [ (1199 # 100, 1); (117 # 10, 5) ].
Definition lower_edge_asks : list level := [ (1201 # 100, 1) ].

Definition lopsided_bids : list level := [ (100, 1001 # 10) ].
Definition lopsided_asks : list level := [ (1001 # 10, 3 # 10) ].

(** Tick size 0.1 with one decimal, half spread 0.1, and a flat book
    1.5 / 1.7 whose spread is twice the half spread. *)
Definition dime_strategy : MarketMakingStrategy.t :=
  MarketMakingStrategy.mk "BTC/USDT" 1 2 (decimal 1 10) (decimal 1 10)
    (decimal 1 10) 1.

Definition narrow_book : TickContext :=
  new_context 0 [ (decimal 15 10, 1%float) ] [ (decimal 17 10, 1%float) ]
    0%float.

(** Tick size 0.5, for which [initialize] stores precision 0, and the book
    100 / 101 of the worked example. *)
Definition half_tick_strategy : MarketMakingStrategy.t :=
  MarketMakingStrategy.mk "BTC/USDT" 1 2 (decimal 5 10) (decimal 1 10)
    (decimal 5 10) 0.

Definition example_book : TickContext :=
  new_context 0 (read_book example_bids) (read_book example_asks) 0%float.

End Binary64.

(** * Properties *)

(** ** Sums *)

Lemma fold_left_Qplus_acc (xs : list Q) (a : Q) :
  fold_left Qplus xs a == a + fold_left Qplus xs 0.
Proof.
  revert a. induction xs as [|x xs IH]; intros a; simpl.
  - lra.
  - rewrite (IH (a + x)), (IH (0 + x)). lra.
Qed.

Lemma qsum_cons (x : Q) (xs : list Q) : qsum (x :: xs) == x + qsum xs.
Proof.
  unfold qsum. simpl. rewrite fold_left_Qplus_acc. lra.
Qed.

Lemma qsum_app (xs ys : list Q) : qsum (xs ++ ys) == qsum xs + qsum ys.
Proof.
  induction xs as [|x xs IH]; simpl.
  - unfold qsum at 2. simpl. lra.
  - rewrite !qsum_cons, IH. lra.
Qed.

Lemma qsum_filter_sum_where (keep : Q -> bool) (side : list level) :
  qsum (map snd (List.filter (fun l => keep (fst l)) side))
  == sum_where keep side.
Proof.
  induction side as [|[p q] rest IH]; simpl.
  - reflexivity.
  - destruct (keep p); simpl.
    + rewrite qsum_cons, IH. reflexivity.
    + exact IH.
Qed.

(** ** Raw imbalance *)

Lemma compute_raw_imbalance_spec (self : OBICalculator.t)
  (bp bq ap aq : Q) (bids asks : list level) :
  exists raw,
    OBICalculator.compute_raw_imbalance self ((bp, bq) :: bids)
      ((ap, aq) :: asks) = Ok raw
    /\ raw == spec_raw_imbalance (OBICalculator.depth self) bp ap
                ((bp, bq) :: bids) ((ap, aq) :: asks).
Proof.
  eexists. split.
  - reflexivity.
  - unfold spec_raw_imbalance, OBICalculator.band_bid_qty,
      OBICalculator.band_ask_qty.
    rewrite (qsum_filter_sum_where
               (fun p => Qle_bool ((bp + ap) / 2
                                   * (1 - OBICalculator.depth self)) p)).
    rewrite (qsum_filter_sum_where
               (fun p => Qle_bool p ((bp + ap) / 2
                                     * (1 + OBICalculator.depth self)))).
    reflexivity.
Qed.

(** *** Raw imbalance in binary64 *)

(** The floats three decimal numerals are read as, and the raw ask
    [(1.5 + 1.7) / 2 + 0.1], one unit in the last place above 1.7. *)
Example decimal_numerals_read :
  Binary64.decimal 1 10 = 0x1.999999999999ap-4%float
  /\ Binary64.decimal 17 10 = 0x1.b333333333333p+0%float
  /\ Binary64.decimal 123 10 = 0x1.899999999999ap+3%float
  /\ ((Binary64.decimal 15 10 + Binary64.decimal 17 10) / 2
      + Binary64.decimal 1 10)%float = 0x1.b333333333334p+0%float.
Proof. repeat split; vm_compute; reflexivity. Qed.

Lemma quantities_where_filter (keep : float -> bool)
  (side : list (float * float)) :
  map snd (List.filter (fun l => keep (fst l)) side)
  = Binary64.quantities_where keep side.
Proof.
  induction side as [|[p q] rest IH]; simpl.
  - reflexivity.
  - destruct (keep p); simpl; rewrite IH; reflexivity.
Qed.

(** C6 (amended).  On a book whose two sides are non-empty
    [compute_raw_imbalance] returns the band rule as binary64 computes it:
    the sum of the bid quantities priced at or above [mid * (1 - depth)]
    less the sum of the ask quantities priced at or below
    [mid * (1 + depth)], with [mid] half the sum of the two best prices, the
    mid, the two bounds and the difference each rounded to binary64 and the
    sums taken by the built-in [sum] over the kept quantities in book
    order. *)
Theorem raw_imbalance_is_the_rounded_band_rule (py_sum : list float -> float)
  (self : Binary64.OBICalculator.t) (bp bq ap aq : float)
  (bids asks : list (float * float)) :
  Binary64.OBICalculator.compute_raw_imbalance py_sum self
    ((bp, bq) :: bids) ((ap, aq) :: asks)
  = Ok (Binary64.spec_raw_imbalance py_sum (Binary64.OBICalculator.depth self)
          bp ap ((bp, bq) :: bids) ((ap, aq) :: asks)).
Proof.
  unfold Binary64.OBICalculator.compute_raw_imbalance,
    Binary64.spec_raw_imbalance.
  cbn [Binary64.first_price bind]. cbv zeta.
  rewrite (quantities_where_filter
             (fun p => ((bp + ap) / 2
                        * (1 - Binary64.OBICalculator.depth self) <=? p)%float)).
  rewrite (quantities_where_filter
             (fun p => (p <=? (bp + ap) / 2
                              * (1 + Binary64.OBICalculator.depth self))%float)).
  reflexivity.
Qed.

(** C6, refuted as stated.  The program's result is not the exact band
    rule.  With the ask 12.3 on the upper bound [12.0 * 1.025] the rounded
    bound falls just under 12.3: the level is dropped and the result is 0.0
    where the rule on the decimal book gives -5.  With the bid 11.7 on the
    lower bound [12.0 * 0.975] the level is kept and the result is 5.0 where
    the rule on the exact values of the floats gives 0.  And with no level
    near a bound the difference [100.1 - 0.3] is itself rounded, so that
    the result is not the difference of the two sums. *)
Lemma raw_imbalance_departs_from_the_exact_band_rule :
  (Binary64.OBICalculator.compute_raw_imbalance Binary64.sum_in_order
     Binary64.fresh_calculator (Binary64.read_book Binary64.upper_edge_bids)
     (Binary64.read_book Binary64.upper_edge_asks) = Ok 0%float
   /\ spec_raw_imbalance (25 # 1000) (1199 # 100) (1201 # 100)
        Binary64.upper_edge_bids Binary64.upper_edge_asks == - (5))
  /\ (Binary64.OBICalculator.compute_raw_imbalance Binary64.sum_in_order
        Binary64.fresh_calculator (Binary64.read_book Binary64.lower_edge_bids)
        (Binary64.read_book Binary64.lower_edge_asks) = Ok 5%float
      /\ Binary64.exact_band_rule Binary64.fresh_calculator
           (Binary64.read_book Binary64.lower_edge_bids)
           (Binary64.read_book Binary64.lower_edge_asks) == 0)
  /\ exists (raw : float) (x : Q),
       Binary64.OBICalculator.compute_raw_imbalance Binary64.sum_in_order
         Binary64.fresh_calculator (Binary64.read_book Binary64.lopsided_bids)
         (Binary64.read_book Binary64.lopsided_asks) = Ok raw
       /\ Binary64.exact_value raw = Some x
       /\ ~ x == Binary64.exact_band_rule Binary64.fresh_calculator
                   (Binary64.read_book Binary64.lopsided_bids)
                   (Binary64.read_book Binary64.lopsided_asks).
Proof.
  split; [split; vm_compute; reflexivity|].
  split; [split; vm_compute; reflexivity|].
  do 2 eexists. split; [vm_compute; reflexivity|].
  split; [vm_compute; reflexivity|].
  intros H. vm_compute in H. discriminate H.
Qed.

(** ** Failure on an empty side *)

Lemma compute_raw_imbalance_empty (self : OBICalculator.t)
  (bids asks : list level) :
  bids = [] \/ asks = [] ->
  OBICalculator.compute_raw_imbalance self bids asks = Raise IndexError.
Proof.
  intros [-> | ->].
  - reflexivity.
  - destruct bids as [|[bp bq] bids]; reflexivity.
Qed.

(** C7.  [compute_alpha] succeeds when both sides of the snapshot hold at
    least one level, and raises [IndexError] -- the failure the
    specification calls InsufficientDepthError -- and nothing else when the
    bid side or the ask side is empty. *)
Theorem observe_fails_exactly_on_empty_side (np_sqrt : Q -> option Q)
  (self : OBICalculator.t) (ts : Z) (bids asks : list level) :
  match bids, asks with
  | _ :: _, _ :: _ =>
      exists signal,
        snd (OBICalculator.compute_alpha np_sqrt self ts bids asks)
        = Ok signal
  | _, _ =>
      snd (OBICalculator.compute_alpha np_sqrt self ts bids asks)
      = Raise InsufficientDepthError
  end.
Proof.
  unfold OBICalculator.compute_alpha. cbv zeta.
  destruct bids as [|[bp bq] bids].
  - rewrite compute_raw_imbalance_empty by (left; reflexivity). reflexivity.
  - destruct asks as [|[ap aq] asks].
    + rewrite compute_raw_imbalance_empty by (right; reflexivity).
      reflexivity.
    + destruct (compute_raw_imbalance_spec
                  (OBICalculator._purge_expired self ts) bp bq ap aq bids asks)
        as (raw & Hraw & _).
      eexists. rewrite Hraw. reflexivity.
Qed.

(** ** Standardisation *)

(** C5.  On a book that does not move the third call of [compute_alpha]
    returns -1.0.  The window then holds the same raw value 0.1 three
    times: its population standard deviation is 0 and the claim has the
    signal at 0.  The mean numpy computes, [(0.1 + 0.1 + 0.1) / 3], is one
    unit in the last place above 0.1, the deviation comes out as
    [2^-56], not 0, and the test [s == 0] lets the division through. *)
Theorem steady_window_signal_is_not_zero :
  let steady := (Binary64.steady_bids, Binary64.steady_asks) in
  let run :=
    Binary64.observe_all Binary64.fresh_calculator
      [ (0%Z, steady); (1000%Z, steady); (2000%Z, steady) ] in
  let window := map snd (Binary64.OBICalculator.history (fst run)) in
  snd run = [ Ok 0%float; Ok 0%float; Ok (- 1)%float ]
  /\ window = [ Binary64.decimal 1 10; Binary64.decimal 1 10;
                Binary64.decimal 1 10 ]
  /\ OBICalculator.nanvar
       (map (fun raw => default 0 (Binary64.exact_value raw)) window) == 0
  /\ exists s,
       Binary64.exact_value (Binary64.nanstd_in_order window) = Some s
       /\ s == 2 ^ (-56).
Proof.
  cbv zeta. split; [vm_compute; reflexivity|].
  split; [vm_compute; reflexivity|].
  split; [vm_compute; reflexivity|].
  eexists. split; vm_compute; reflexivity.
Qed.

(** ** The signal window *)

Lemma pop_while_older_keeps_recent (cutoff : Z) (h : list (Z * Q)) :
  time_ordered h ->
  Forall (fun s => (cutoff <= fst s)%Z) (OBICalculator.pop_while_older cutoff h).
Proof.
  unfold time_ordered.
  induction h as [|[t r] rest IH]; intros Hs; simpl.
  - constructor.
  - apply StronglySorted_inv in Hs as [Hrest Hhd].
    destruct (Z.ltb_spec t cutoff) as [Hlt | Hge].
    + apply IH, Hrest.
    + constructor; [exact Hge|].
      eapply List.Forall_impl; [|exact Hhd].
      intros [t' r'] Hle. simpl in *. lia.
Qed.

Lemma pop_while_older_suffix (cutoff : Z) (h : list (Z * Q)) :
  exists dropped, h = dropped ++ OBICalculator.pop_while_older cutoff h.
Proof.
  induction h as [|[t r] rest [dropped IH]]; simpl.
  - exists []. reflexivity.
  - destruct (t <? cutoff)%Z.
    + exists ((t, r) :: dropped). simpl. f_equal. exact IH.
    + exists []. reflexivity.
Qed.

Lemma time_ordered_app_inv_r (h1 h2 : list (Z * Q)) :
  time_ordered (h1 ++ h2) -> time_ordered h2.
Proof.
  unfold time_ordered. induction h1 as [|x h1 IH]; simpl; intros Hs.
  - exact Hs.
  - apply StronglySorted_inv in Hs as [Hs _]. apply IH, Hs.
Qed.

Lemma time_ordered_snoc (h : list (Z * Q)) (s : Z * Q) :
  time_ordered h ->
  Forall (fun s' => (fst s' <= fst s)%Z) h ->
  time_ordered (h ++ [s]).
Proof.
  unfold time_ordered. induction h as [|x h IH]; simpl; intros Hs Hle.
  - constructor; constructor.
  - apply StronglySorted_inv in Hs as [Hs Hx].
    apply Forall_cons_iff in Hle as [Hxs Hle].
    constructor.
    + apply IH; assumption.
    + apply Forall_app. split; [exact Hx|]. constructor; [exact Hxs|constructor].
Qed.

Lemma Forall_suffix {A : Type} (P : A -> Prop) (l1 l2 : list A) :
  Forall P (l1 ++ l2) -> Forall P l2.
Proof.
  intros H. apply Forall_app in H. apply H.
Qed.

(** The shape of the window after a call: the purged window, followed by
    the new sample when the call succeeded. *)
Lemma compute_alpha_history (np_sqrt : Q -> option Q)
  (self : OBICalculator.t) (now : Z) (bids asks : list level) :
  let purged :=
    OBICalculator.pop_while_older (now - OBICalculator.window_ms self)
      (OBICalculator.history self) in
  let after := OBICalculator.compute_alpha np_sqrt self now bids asks in
  OBICalculator.window_ms (fst after) = OBICalculator.window_ms self
  /\ match snd after with
     | Ok _ =>
         exists raw, OBICalculator.history (fst after) = purged ++ [(now, raw)]
     | Raise _ => OBICalculator.history (fst after) = purged
     end.
Proof.
  cbv zeta. unfold OBICalculator.compute_alpha. cbv zeta.
  destruct (OBICalculator.compute_raw_imbalance _ bids asks) as [raw|e];
    simpl; split; try reflexivity.
  exists raw. reflexivity.
Qed.

(** C3 (amended).  When the window is time-ordered and the window duration
    is not negative, a call of [compute_alpha] at timestamp [now] leaves only
    samples whose timestamp is at least [now - window_ms]; the window it
    leaves is the purged old window with the new sample [(now, raw)]
    appended after the purge (and the purged old window alone when the call
    raises). *)
Theorem window_invariant_when_time_ordered (np_sqrt : Q -> option Q)
  (self : OBICalculator.t) (now : Z) (bids asks : list level) :
  time_ordered (OBICalculator.history self) ->
  (0 <= OBICalculator.window_ms self)%Z ->
  let purged :=
    OBICalculator.history (OBICalculator._purge_expired self now) in
  let after := OBICalculator.compute_alpha np_sqrt self now bids asks in
  within_window (fst after) now
  /\ match snd after with
     | Ok _ =>
         exists raw, OBICalculator.history (fst after) = purged ++ [(now, raw)]
     | Raise _ => OBICalculator.history (fst after) = purged
     end.
Proof.
  intros Hsorted Hw. cbv zeta.
  pose proof (compute_alpha_history np_sqrt self now bids asks) as H.
  cbv zeta in H. destruct H as [Hwin Hshape].
  pose proof (pop_while_older_keeps_recent
                (now - OBICalculator.window_ms self) _ Hsorted) as Hkept.
  unfold within_window. rewrite Hwin.
  change (OBICalculator.history (OBICalculator._purge_expired self now))
    with (OBICalculator.pop_while_older (now - OBICalculator.window_ms self)
            (OBICalculator.history self)).
  split; [|exact Hshape].
  destruct (snd (OBICalculator.compute_alpha np_sqrt self now bids asks)).
  - destruct Hshape as [raw ->]. apply Forall_app. split; [exact Hkept|].
    constructor; [simpl; lia|constructor].
  - rewrite Hshape. exact Hkept.
Qed.

Lemma window_invariant_when_time_ordered_witness :
  let self := OBICalculator.mk (25 # 1000) 30 [(100%Z, 0); (110%Z, 0)] in
  within_window
    (fst (OBICalculator.compute_alpha exact_sqrt self 135 example_bids
            example_asks)) 135.
Proof.
  intros self.
  refine (proj1 (window_invariant_when_time_ordered exact_sqrt self 135
                   example_bids example_asks _ _)).
  - repeat constructor; simpl; lia.
  - simpl; lia.
Defined.

(** Time order is kept by a call whose timestamp is not older than the
    newest retained sample. *)
Lemma compute_alpha_keeps_time_order (np_sqrt : Q -> option Q)
  (self : OBICalculator.t) (now : Z) (bids asks : list level) :
  time_ordered (OBICalculator.history self) ->
  Forall (fun s => (fst s <= now)%Z) (OBICalculator.history self) ->
  let after := fst (OBICalculator.compute_alpha np_sqrt self now bids asks) in
  time_ordered (OBICalculator.history after)
  /\ Forall (fun s => (fst s <= now)%Z) (OBICalculator.history after).
Proof.
  intros Hsorted Hle. cbv zeta.
  destruct (compute_alpha_history np_sqrt self now bids asks) as [_ Hshape].
  destruct (pop_while_older_suffix (now - OBICalculator.window_ms self)
              (OBICalculator.history self)) as [dropped Hsplit].
  rewrite Hsplit in Hsorted, Hle.
  apply time_ordered_app_inv_r in Hsorted. apply Forall_suffix in Hle.
  destruct (snd (OBICalculator.compute_alpha np_sqrt self now bids asks)).
  - destruct Hshape as [raw ->]. split.
    + apply time_ordered_snoc; assumption.
    + apply Forall_app. split; [exact Hle|].
      constructor; [simpl; lia|constructor].
  - rewrite Hshape. split; assumption.
Qed.

(** A stream whose timestamps never decrease keeps the window of an
    initially empty calculator time-ordered, so every call of such a stream
    meets the premise above. *)
Lemma observe_all_keeps_time_order (np_sqrt : Q -> option Q)
  (snapshots : list (Z * (list level * list level))) :
  forall self : OBICalculator.t,
    StronglySorted Z.le (map fst snapshots) ->
    time_ordered (OBICalculator.history self) ->
    Forall (fun s => Forall (fun t => (fst s <= t)%Z) (map fst snapshots))
      (OBICalculator.history self) ->
    time_ordered (OBICalculator.history (observe_all np_sqrt self snapshots)).
Proof.
  induction snapshots as [|[t [bs az]] rest IH]; intros self Hts Hord Hold.
  - exact Hord.
  - cbn [map fst] in Hts, Hold. cbn [observe_all].
    apply StronglySorted_inv in Hts as [Hrest Hhead].
    assert (Hle : Forall (fun s => (fst s <= t)%Z) (OBICalculator.history self)).
    { eapply List.Forall_impl; [|exact Hold].
      intros s Hs. apply Forall_cons_iff in Hs. apply Hs. }
    destruct (compute_alpha_keeps_time_order np_sqrt self t bs az Hord Hle)
      as [Hord' Hle'].
    apply IH; [exact Hrest|exact Hord'|].
    eapply List.Forall_impl; [|exact Hle'].
    intros s Hs. eapply List.Forall_impl; [|exact Hhead].
    intros t' Ht'. simpl in *. lia.
Qed.

Lemma observe_all_from_empty_time_ordered (np_sqrt : Q -> option Q)
  (depth : Q) (window_ms : Z)
  (snapshots : list (Z * (list level * list level))) :
  StronglySorted Z.le (map fst snapshots) ->
  time_ordered
    (OBICalculator.history
       (observe_all np_sqrt (OBICalculator.mk depth window_ms []) snapshots)).
Proof.
  intros Hts. apply observe_all_keeps_time_order.
  - exact Hts.
  - constructor.
  - constructor.
Qed.

(** C3, refuted as stated: with a 30 ms window, snapshots stamped 100, 50
    and 120 leave the sample stamped 50 in the window after the third
    call, although 50 < 120 - 30. *)
Lemma window_invariant_fails_out_of_order :
  let after := observe_all exact_sqrt short_window out_of_order_run in
  OBICalculator.history after = [(100%Z, 0); (50%Z, 0); (120%Z, 0)]
  /\ ~ within_window after 120.
Proof.
  cbv zeta. split.
  - vm_compute. reflexivity.
  - unfold within_window. intros H.
    assert (E : OBICalculator.history
                  (observe_all exact_sqrt short_window out_of_order_run)
                = [(100%Z, 0); (50%Z, 0); (120%Z, 0)]) by (vm_compute; reflexivity).
    rewrite E in H.
    apply Forall_cons_iff in H as [_ H].
    apply Forall_cons_iff in H as [H _].
    simpl in H. lia.
Qed.

(** ** Desired sizes *)

(** C4.  The sizes [manage_orders] quotes follow the close-before-open
    rule: long, the buy size is [max(order_qty - position, 0)] and the sell
    size is [order_qty]; short, the sell size is
    [max(order_qty - |position|, 0)] and the buy size is [order_qty]; flat,
    both are [order_qty]. *)
Theorem close_before_open_sizes (self : MarketMakingStrategy.t) (pos : Q) :
  let bqty := fst (MarketMakingStrategy.desired_qty self pos) in
  let sqty := snd (MarketMakingStrategy.desired_qty self pos) in
  let order_qty := MarketMakingStrategy.order_qty self in
  match Qcompare pos 0 with
  | Gt => bqty = Qmax (order_qty - pos) 0 /\ sqty = order_qty
  | Lt => sqty = Qmax (order_qty - Qabs pos) 0 /\ bqty = order_qty
  | Eq => bqty = order_qty /\ sqty = order_qty
  end.
Proof.
  cbv zeta. unfold MarketMakingStrategy.desired_qty.
  destruct (Qcompare pos 0) eqn:C.
  - apply Qeq_alt in C.
    destruct (Qlt_le_dec 0 pos) as [H|H]; [lra|].
    destruct (Qlt_le_dec pos 0) as [H'|H']; [lra|].
    split; reflexivity.
  - apply Qlt_alt in C.
    destruct (Qlt_le_dec 0 pos) as [H|H]; [lra|].
    destruct (Qlt_le_dec pos 0) as [H'|H']; [|lra].
    split; reflexivity.
  - apply Qgt_alt in C.
    destruct (Qlt_le_dec 0 pos) as [H|H]; [|lra].
    split; reflexivity.
Qed.

(** ** Reconciliation *)


Lemma positive_qty (q : Q) : negb (Qle_bool q 0) = true <-> 0 < q.
Proof.
  rewrite negb_true_iff. split.
  - intros H. apply Qnot_le_lt. intros Hle.
    apply Qle_bool_iff in Hle. congruence.
  - intros H. destruct (Qle_bool q 0) eqn:E; [|reflexivity].
    apply Qle_bool_iff in E. lra.
Qed.

Lemma py_div_nonzero (x y : Q) : ~ y == 0 -> py_div x y = Ok (x / y).
Proof.
  intros H. unfold py_div. destruct (Qeq_bool y 0) eqn:E; [|reflexivity].
  apply Qeq_bool_iff in E. contradiction.
Qed.

Lemma existing_ticks_total (self : MarketMakingStrategy.t)
  (orders : list open_order) :
  ~ MarketMakingStrategy.tick_size self == 0 ->
  forall buy_ticks sell_ticks,
  exists eb es,
    MarketMakingStrategy.existing_ticks self orders buy_ticks sell_ticks
    = Ok (eb, es).
Proof.
  intros Ht. induction orders as [|o rest IH]; intros B S.
  - do 2 eexists. reflexivity.
  - cbn [MarketMakingStrategy.existing_ticks].
    rewrite py_div_nonzero by exact Ht. cbn [bind].
    destruct (String.eqb (order_side o) "buy"); [apply IH|].
    destruct (String.eqb (order_side o) "sell"); apply IH.
Qed.

(** The two tick sets hold exactly the rounded ticks of the resting orders
    of their side. *)
Lemma existing_ticks_spec (self : MarketMakingStrategy.t)
  (orders : list open_order) :
  forall (buy_ticks sell_ticks eb es : gset Z),
    MarketMakingStrategy.existing_ticks self orders buy_ticks sell_ticks
    = Ok (eb, es) ->
    forall k : Z,
      (k ∈ eb <->
       k ∈ buy_ticks
       \/ exists o ratio,
            In o orders /\ order_side o = "buy"
            /\ py_div (default 0 (order_price o))
                 (MarketMakingStrategy.tick_size self) = Ok ratio
            /\ py_round ratio = k)
      /\ (k ∈ es <->
          k ∈ sell_ticks
          \/ exists o ratio,
               In o orders /\ order_side o = "sell"
               /\ py_div (default 0 (order_price o))
                    (MarketMakingStrategy.tick_size self) = Ok ratio
               /\ py_round ratio = k).
Proof.
  induction orders as [|o rest IH]; intros B S eb es Hrun k.
  - cbn in Hrun. injection Hrun as <- <-.
    split; (split; [intros H; left; exact H
                   | intros [H | (o & r & [] & _)]; exact H]).
  - cbn [MarketMakingStrategy.existing_ticks] in Hrun.
    change (match order_price o with Some p => p | None => 0 end)
      with (default 0 (order_price o)) in Hrun.
    destruct (py_div (default 0 (order_price o))
                (MarketMakingStrategy.tick_size self)) as [ratio|e] eqn:Hdiv;
      [|discriminate Hrun].
    cbn [bind] in Hrun.
    destruct (String.eqb (order_side o) "buy") eqn:Hbuy.
    + apply String.eqb_eq in Hbuy.
      destruct (IH _ _ _ _ Hrun k) as [Hb Hs]. split.
      * rewrite Hb, elem_of_union, elem_of_singleton. split.
        -- intros [[-> | H] | (o' & r & Hin & Hrest)].
           ++ right. exists o, ratio. repeat split; auto. left. reflexivity.
           ++ left. exact H.
           ++ right. exists o', r. split; [right; exact Hin | exact Hrest].
        -- intros [H | (o' & r & [<- | Hin] & Hside & Hd & Hr)].
           ++ left. right. exact H.
           ++ left. left. rewrite Hdiv in Hd. injection Hd as <-.
              symmetry. exact Hr.
           ++ right. exists o', r. auto.
      * rewrite Hs. split.
        -- intros [H | (o' & r & Hin & Hrest)]; [left; exact H|].
           right. exists o', r. split; [right; exact Hin | exact Hrest].
        -- intros [H | (o' & r & [<- | Hin] & Hside & Hrest)];
             [left; exact H | rewrite Hbuy in Hside; discriminate Hside |].
           right. exists o', r. auto.
    + destruct (String.eqb (order_side o) "sell") eqn:Hsell.
      * apply String.eqb_eq in Hsell.
        destruct (IH _ _ _ _ Hrun k) as [Hb Hs]. split.
        -- rewrite Hb. split.
           ++ intros [H | (o' & r & Hin & Hrest)]; [left; exact H|].
              right. exists o', r. split; [right; exact Hin | exact Hrest].
           ++ intros [H | (o' & r & [<- | Hin] & Hside & Hrest)];
                [left; exact H | rewrite Hsell in Hside; discriminate Hside |].
              right. exists o', r. auto.
        -- rewrite Hs, elem_of_union, elem_of_singleton. split.
           ++ intros [[-> | H] | (o' & r & Hin & Hrest)].
              ** right. exists o, ratio. repeat split; auto. left. reflexivity.
              ** left. exact H.
              ** right. exists o', r. split; [right; exact Hin | exact Hrest].
           ++ intros [H | (o' & r & [<- | Hin] & Hside & Hd & Hr)].
              ** left. right. exact H.
              ** left. left. rewrite Hdiv in Hd. injection Hd as <-.
                 symmetry. exact Hr.
              ** right. exists o', r. auto.
      * destruct (IH _ _ _ _ Hrun k) as [Hb Hs]. split.
        -- rewrite Hb. split.
           ++ intros [H | (o' & r & Hin & Hrest)]; [left; exact H|].
              right. exists o', r. split; [right; exact Hin | exact Hrest].
           ++ intros [H | (o' & r & [<- | Hin] & Hside & Hrest)];
                [left; exact H | | right; exists o', r; auto].
              apply String.eqb_neq in Hbuy. contradiction.
        -- rewrite Hs. split.
           ++ intros [H | (o' & r & Hin & Hrest)]; [left; exact H|].
              right. exists o', r. split; [right; exact Hin | exact Hrest].
           ++ intros [H | (o' & r & [<- | Hin] & Hside & Hrest)];
                [left; exact H | | right; exists o', r; auto].
              apply String.eqb_neq in Hsell. contradiction.
Qed.





(** ** A failed fetch of the open orders *)

Lemma manage_orders_logs_info_only (self : MarketMakingStrategy.t)
  (ex : exchange) (ctx : TickContext) :
  existsb is_warning (fst (MarketMakingStrategy.manage_orders self ex ctx))
  = false.
Proof.
  unfold MarketMakingStrategy.manage_orders. cbv zeta.
  destruct (MarketMakingStrategy.existing_ticks _ _ _ _) as [[eb es]|e];
    [|reflexivity].
  destruct (position ctx) as [pos|]; [|reflexivity].
  destruct (MarketMakingStrategy.desired_qty self pos) as [bqty sqty].
  destruct (_ ++ _) as [|r rs]; [reflexivity|].
  unfold log. cbn [bids asks].
  destruct (bids ctx), (asks ctx); reflexivity.
Qed.

(** C9 (amended).  When the fetch of the open orders raises, [manage_orders]
    goes on with an empty list of resting orders: whatever the error, the
    pass makes the same calls and ends the same way as a pass whose fetch
    returned no order.  The failure itself leaves no log record: no
    WARNING record is written by the pass. *)
Theorem fetch_failure_degrades_silently (self : MarketMakingStrategy.t)
  (positions : result (list pos_info)) (e : exn) (ctx : TickContext) :
  MarketMakingStrategy.manage_orders self (mkExchange positions (Raise e)) ctx
  = MarketMakingStrategy.manage_orders self (mkExchange positions (Ok [])) ctx
  /\ existsb is_warning
       (fst (MarketMakingStrategy.manage_orders self
               (mkExchange positions (Raise e)) ctx)) = false.
Proof.
  split.
  - reflexivity.
  - apply manage_orders_logs_info_only.
Qed.

(** C9, refuted as stated: with the fetch failing on the worked example the
    pass cancels, quotes both sides and returns normally, and the only log
    record of the pass is the INFO summary of the tick; no warning is
    logged for the failure. *)
Lemma fetch_failure_logs_no_warning :
  let trace :=
    fst (MarketMakingStrategy.manage_orders example_strategy fetch_fails
           example_target) in
  actions_of trace
  = [ CancelAll "BTC/USDT";
      CreateBuy (Some (999 # 10)) 1;
      CreateSell (Some (1011 # 10)) 1 ]
  /\ is_ok (snd (MarketMakingStrategy.manage_orders example_strategy
                   fetch_fails example_target)) = true
  /\ List.filter is_warning trace = [].
Proof.
  vm_compute. repeat split.
Qed.

(** ** Rounding *)

Lemma py_round_inject_Z (z : Z) : py_round (inject_Z z) = z.
Proof.
  unfold py_round. cbv zeta. rewrite Qfloor_Z.
  assert (E : inject_Z z - inject_Z z == 0) by ring.
  rewrite (Qcompare_comp _ _ E (1 # 2) (1 # 2) (Qeq_refl _)). reflexivity.
Qed.

Lemma py_round_comp (x y : Q) : x == y -> py_round x = py_round y.
Proof.
  intros H. unfold py_round. cbv zeta.
  rewrite (Qfloor_comp x y H).
  assert (E : x - inject_Z (Qfloor y) == y - inject_Z (Qfloor y))
    by (rewrite H; reflexivity).
  rewrite (Qcompare_comp _ _ E (1 # 2) (1 # 2) (Qeq_refl _)). reflexivity.
Qed.

Lemma pow10_pos (p : Z) : 0 < 10 ^ p.
Proof.
  apply Qpower_0_lt. reflexivity.
Qed.

(** Formatting a multiple of the tick size changes nothing when the tick
    size is a whole number of units of the last printed decimal. *)
Lemma format_fixed_on_grid (p : Z) (tick : Q) (k n : Z) :
  (0 <= p)%Z ->
  tick * 10 ^ p == inject_Z k ->
  exists v, format_fixed p (inject_Z n * tick) = Ok v
            /\ v == inject_Z n * tick.
Proof.
  intros Hp Hk. unfold format_fixed.
  destruct (Z.ltb_spec p 0) as [Hneg|_]; [lia|].
  eexists. split; [reflexivity|].
  assert (E : inject_Z n * tick * 10 ^ p == inject_Z (n * k)).
  { rewrite inject_Z_mult, <- Hk. ring. }
  rewrite (py_round_comp _ _ E), py_round_inject_Z.
  pose proof (pow10_pos p) as Hpos.
  rewrite inject_Z_mult, <- Hk. field. lra.
Qed.

Lemma floor_tick_le (raw tick : Q) :
  0 < tick -> inject_Z (Qfloor (raw / tick)) * tick <= raw.
Proof.
  intros Ht. pose proof (Qfloor_le (raw / tick)) as H.
  apply (Qmult_le_compat_r _ _ tick) in H; [|lra].
  assert (E : raw / tick * tick == raw) by (field; lra).
  rewrite E in H. exact H.
Qed.

Lemma ceiling_tick_ge (raw tick : Q) :
  0 < tick -> raw <= inject_Z (Qceiling (raw / tick)) * tick.
Proof.
  intros Ht. pose proof (Qle_ceiling (raw / tick)) as H.
  apply (Qmult_le_compat_r _ _ tick) in H; [|lra].
  assert (E : raw / tick * tick == raw) by (field; lra).
  rewrite E in H. exact H.
Qed.

(** The guards of step 6 put the raw prices strictly outside the touch. *)
Lemma guarded_bid_below (best raw tick : Q) :
  0 < tick -> (if Qle_bool best raw then best - tick else raw) < best.
Proof.
  intros Ht. destruct (Qle_bool best raw) eqn:E.
  - lra.
  - apply Qnot_le_lt. intros H. apply Qle_bool_iff in H. congruence.
Qed.

Lemma guarded_ask_above (best raw tick : Q) :
  0 < tick -> best < (if Qle_bool raw best then best + tick else raw).
Proof.
  intros Ht. destruct (Qle_bool raw best) eqn:E.
  - lra.
  - apply Qnot_le_lt. intros H. apply Qle_bool_iff in H. congruence.
Qed.

(** ** Quotes *)

(** C1.  Two quotes that land on the touch.  With tick size 0.1, half
    spread 0.1 and the book 1.5 / 1.7 the raw ask [1.6 + 0.1] is one unit in
    the last place above 1.7, so the guard [raw_ask <= best_ask] does not
    fire; the quotient by 0.1 rounds to 17.0 and the ask is quoted at 1.7,
    the best ask.  With tick size 0.5, hence precision 0, and the book
    100 / 101 the guard does fire and forces the raw bid to 99.5, which is
    printed with no decimals as 100, the best bid. *)
Theorem quotes_land_on_the_touch :
  (exists quoted,
      Binary64.MarketMakingStrategy.calculate_prices Binary64.dime_strategy
        (Ok []) Binary64.narrow_book = inr quoted
      /\ Binary64.ask_tick quoted = Some 17%Z
      /\ Binary64.ask_price quoted = Some (Binary64.decimal 17 10)
      /\ Binary64.MarketMakingStrategy.best_or_zero
           (Binary64.asks Binary64.narrow_book) = Binary64.decimal 17 10
      /\ (Binary64.decimal 17 10
          <? (Binary64.decimal 15 10 + Binary64.decimal 17 10) / 2
             + Binary64.decimal 1 10)%float = true)
  /\ MarketMakingStrategy.initialize example_params (1 # 2)
     = Ok half_tick_strategy
  /\ exists quoted,
       Binary64.MarketMakingStrategy.calculate_prices
         Binary64.half_tick_strategy (Ok []) Binary64.example_book
       = inr quoted
       /\ Binary64.bid_tick quoted = Some 199%Z
       /\ Binary64.bid_price quoted = Some (Binary64.decimal 100 1)
       /\ Binary64.MarketMakingStrategy.best_or_zero
            (Binary64.bids Binary64.example_book) = Binary64.decimal 100 1.
Proof.
  split.
  - eexists. split; [vm_compute; reflexivity|].
    repeat split; vm_compute; reflexivity.
  - split; [vm_compute; reflexivity|].
    eexists. split; [vm_compute; reflexivity|].
    repeat split; vm_compute; reflexivity.
Qed.

(** The worked example of the specification, end to end. *)
Example initialize_decimal_tick :
  MarketMakingStrategy.initialize example_params (1 # 10) = Ok example_strategy.
Proof. vm_compute. reflexivity. Qed.

Example worked_example_target :
  MarketMakingStrategy.calculate_prices example_strategy quiet_exchange
    (new_context 0 example_bids example_asks 0) = Ok example_target.
Proof. vm_compute. reflexivity. Qed.

Example worked_example_signal :
  snd (OBICalculator.compute_alpha exact_sqrt
         (OBICalculator.mk (25 # 1000) 600000 [(0%Z, 0)]) 1000
         example_bids example_asks) = Ok 0.
Proof. vm_compute. reflexivity. Qed.



(** With no bids the tick still reaches the exchange: both sides are
    quoted, the bid one tick below zero, and only the summary line of
    [ctx.log()] raises afterwards. *)
Example on_tick_with_empty_bids :
  let run :=
    MarketMakingStrategy.on_tick example_strategy quiet_exchange 0 []
      example_asks 0 in
  actions_of (fst run)
  = [ CancelAll "BTC/USDT";
      CreateBuy (Some (-1 # 10)) 1;
      CreateSell (Some (1011 # 10)) 1 ]
  /\ snd run = Raise TypeError.
Proof. vm_compute. split; reflexivity. Qed.

(** ** Two passes in a row *)

Lemma existing_ticks_nil (self : MarketMakingStrategy.t) (eb es : gset Z) :
  MarketMakingStrategy.existing_ticks self [] eb es = Ok (eb, es).
Proof. reflexivity. Qed.

Lemma tick_of_grid_price (price tick : Q) (k : Z) :
  ~ tick == 0 ->
  price == inject_Z k * tick ->
  exists ratio, py_div price tick = Ok ratio /\ py_round ratio = k.
Proof.
  intros Ht Hp. rewrite py_div_nonzero by exact Ht.
  eexists. split; [reflexivity|].
  assert (E : price / tick == inject_Z k) by (rewrite Hp; field; exact Ht).
  rewrite (py_round_comp _ _ E). apply py_round_inject_Z.
Qed.

(** When the resting orders are exactly one order per side whose desired
    size is positive, each at the target price of its side, and the target
    prices sit on their ticks, a pass does nothing. *)
Lemma pass_is_quiet_on_full_quote (self : MarketMakingStrategy.t)
  (positions : result (list pos_info)) (ctx : TickContext)
  (btk atk : Z) (b a pos : Q) :
  bid_tick ctx = Some btk ->
  ask_tick ctx = Some atk ->
  bid_price ctx = Some b ->
  ask_price ctx = Some a ->
  position ctx = Some pos ->
  ~ MarketMakingStrategy.tick_size self == 0 ->
  b == inject_Z btk * MarketMakingStrategy.tick_size self ->
  a == inject_Z atk * MarketMakingStrategy.tick_size self ->
  let bqty := fst (MarketMakingStrategy.desired_qty self pos) in
  let sqty := snd (MarketMakingStrategy.desired_qty self pos) in
  let resting :=
    (if negb (Qle_bool bqty 0) then [mkOpenOrder (Some b) "buy"] else [])
    ++ (if negb (Qle_bool sqty 0) then [mkOpenOrder (Some a) "sell"] else [])
  in
  MarketMakingStrategy.manage_orders self (mkExchange positions (Ok resting))
    ctx = ([], Ok ctx).
Proof.
  intros Hbt Hat Hbp Hap Hpos Ht Hb Ha. cbv zeta.
  destruct (tick_of_grid_price b _ btk Ht Hb) as (rb & Hdb & Hrb).
  destruct (tick_of_grid_price a _ atk Ht Ha) as (ra & Hda & Hra).
  unfold MarketMakingStrategy.manage_orders. cbv zeta.
  cbn [MarketMakingStrategy.open_orders_or_empty fetch_open_orders].
  rewrite Hpos, Hbt, Hat.
  destruct (MarketMakingStrategy.desired_qty self pos) as [bqty sqty].
  cbn [fst snd].
  destruct (negb (Qle_bool bqty 0)); destruct (negb (Qle_bool sqty 0));
    cbn [app MarketMakingStrategy.existing_ticks order_price order_side];
    rewrite ?Hdb, ?Hda; cbn [bind String.eqb Ascii.eqb Bool.eqb];
    rewrite ?Hrb, ?Hra; cbn [MarketMakingStrategy.existing_ticks];
    unfold MarketMakingStrategy.not_in;
    rewrite ?andb_false_r;
    repeat match goal with
      | |- context [bool_decide (?k ∈ ?s)] =>
          first [ rewrite (bool_decide_eq_true_2 (k ∈ s)) by set_solver
                | rewrite (bool_decide_eq_false_2 (k ∈ s)) by set_solver ]
      end;
    reflexivity.
Qed.

(** C8, on the code: the target of the worked example with only its buy
    order resting.  The first pass misses the sell order, so it cancels
    everything and creates the sell order alone; the book then holds exactly
    that sell order.  The second pass, same target, finds no buy order,
    cancels again and creates the buy order alone -- it is not idle. *)
Theorem second_pass_requotes_cancelled_side :
  let first_pass :=
    MarketMakingStrategy.manage_orders example_strategy
      (mkExchange (Ok []) (Ok buy_resting)) example_target in
  let resting := book_after (fst first_pass) buy_resting in
  let second_pass :=
    MarketMakingStrategy.manage_orders example_strategy
      (mkExchange (Ok []) (Ok resting)) example_target in
  actions_of (fst first_pass)
  = [ CancelAll "BTC/USDT"; CreateSell (Some (1011 # 10)) 1 ]
  /\ resting = [ mkOpenOrder (Some (1011 # 10)) "sell" ]
  /\ actions_of (fst second_pass)
     = [ CancelAll "BTC/USDT"; CreateBuy (Some (999 # 10)) 1 ].
Proof.
  vm_compute. repeat split.
Qed.

(** * More properties of the code *)

(** ** The purge *)

Lemma filter_all_kept {A : Type} (keep : A -> bool) (l : list A) :
  Forall (fun x => keep x = true) l -> List.filter keep l = l.
Proof.
  induction 1 as [|x l Hx _ IH]; simpl.
  - reflexivity.
  - rewrite Hx, IH. reflexivity.
Qed.

(** X1.  On a time-ordered window [_purge_expired] keeps exactly the samples
    that are not older than [now - window_ms], in their order: no sample
    inside the window is lost. *)
Theorem purge_keeps_exactly_the_window (self : OBICalculator.t) (now : Z) :
  time_ordered (OBICalculator.history self) ->
  OBICalculator.history (OBICalculator._purge_expired self now)
  = List.filter (fun s => (now - OBICalculator.window_ms self <=? fst s)%Z)
      (OBICalculator.history self).
Proof.
  unfold OBICalculator._purge_expired. cbn [OBICalculator.history
    OBICalculator.set_history].
  generalize (now - OBICalculator.window_ms self)%Z as cutoff.
  intros cutoff. unfold time_ordered.
  induction (OBICalculator.history self) as [|[t r] rest IH]; intros Hs.
  - reflexivity.
  - apply StronglySorted_inv in Hs as [Hrest Hhd].
    cbn [OBICalculator.pop_while_older List.filter fst].
    destruct (Z.ltb_spec t cutoff) as [Hlt|Hge].
    + destruct (Z.leb_spec cutoff t) as [Hle|_]; [lia|]. apply IH, Hrest.
    + destruct (Z.leb_spec cutoff t) as [_|Hlt]; [|lia].
      f_equal. symmetry. apply filter_all_kept.
      eapply List.Forall_impl; [|exact Hhd].
      intros [t' r'] Hle. simpl in *. apply Z.leb_le. lia.
Qed.

Lemma purge_keeps_exactly_the_window_witness :
  OBICalculator.history
    (OBICalculator._purge_expired
       (OBICalculator.mk (25 # 1000) 30 [(100%Z, 1); (110%Z, 2); (125%Z, 3)])
       135)
  = [(110%Z, 2); (125%Z, 3)].
Proof.
  rewrite (purge_keeps_exactly_the_window
             (OBICalculator.mk (25 # 1000) 30
                [(100%Z, 1); (110%Z, 2); (125%Z, 3)]) 135).
  - reflexivity.
  - repeat constructor; simpl; lia.
Defined.

(** X2.  Whatever the order of the window, [_purge_expired] removes a
    prefix only: the window is the dropped samples followed by the kept
    ones, every dropped sample is older than the cutoff, and the first kept
    sample, if any, is not. *)
Theorem purge_drops_an_expired_prefix (self : OBICalculator.t) (now : Z) :
  let cutoff := (now - OBICalculator.window_ms self)%Z in
  let kept := OBICalculator.history (OBICalculator._purge_expired self now) in
  exists dropped,
    OBICalculator.history self = dropped ++ kept
    /\ Forall (fun s => (fst s < cutoff)%Z) dropped
    /\ match kept with
       | [] => True
       | s :: _ => (cutoff <= fst s)%Z
       end.
Proof.
  cbv zeta. unfold OBICalculator._purge_expired.
  cbn [OBICalculator.history OBICalculator.set_history].
  generalize (now - OBICalculator.window_ms self)%Z as cutoff. intros cutoff.
  induction (OBICalculator.history self) as [|[t r] rest IH].
  - exists []. repeat split. constructor.
  - cbn [OBICalculator.pop_while_older].
    destruct (Z.ltb_spec t cutoff) as [Hlt|Hge].
    + destruct IH as (dropped & Hsplit & Hold & Hhead).
      exists ((t, r) :: dropped). split; [simpl; f_equal; exact Hsplit|].
      split; [constructor; [exact Hlt | exact Hold] | exact Hhead].
    + exists []. split; [reflexivity|]. split; [constructor | exact Hge].
Qed.

(** ** Bounds of the raw imbalance *)

Lemma sum_where_bounds (keep : Q -> bool) (side : list level) :
  Forall (fun l => 0 <= snd l) side ->
  0 <= sum_where keep side /\ sum_where keep side <= qsum (map snd side).
Proof.
  induction 1 as [|[p q] rest Hq _ [IHlo IHhi]]; simpl.
  - split; [lra | unfold qsum; simpl; lra].
  - simpl in Hq. rewrite qsum_cons. destruct (keep p); split; lra.
Qed.

(** X5.  On a book whose quantities are not negative the raw imbalance lies
    between minus the total ask quantity and the total bid quantity. *)
Theorem raw_imbalance_within_book_totals (self : OBICalculator.t)
  (bs az : list level) (raw : Q) :
  Forall (fun l => 0 <= snd l) bs ->
  Forall (fun l => 0 <= snd l) az ->
  OBICalculator.compute_raw_imbalance self bs az = Ok raw ->
  - qsum (map snd az) <= raw /\ raw <= qsum (map snd bs).
Proof.
  intros Hb Ha Hraw.
  destruct bs as [|[bp bq] bs]; [discriminate Hraw|].
  destruct az as [|[ap aq] az]; [discriminate Hraw|].
  destruct (compute_raw_imbalance_spec self bp bq ap aq bs az)
    as (raw' & Hraw' & E).
  rewrite Hraw in Hraw'. injection Hraw' as <-.
  rewrite E. unfold spec_raw_imbalance.
  match goal with
  | |- context [sum_where ?kb ((bp, bq) :: bs) - sum_where ?ka ((ap, aq) :: az)] =>
      pose proof (sum_where_bounds kb _ Hb) as [Hb0 Hb1];
      pose proof (sum_where_bounds ka _ Ha) as [Ha0 Ha1]
  end.
  split; lra.
Qed.

Lemma raw_imbalance_within_book_totals_witness :
  exists raw,
    OBICalculator.compute_raw_imbalance (OBICalculator_init (25 # 1000) 10)
      example_bids example_asks = Ok raw
    /\ - qsum (map snd example_asks) <= raw
    /\ raw <= qsum (map snd example_bids).
Proof.
  exists 0. split; [reflexivity|].
  apply (raw_imbalance_within_book_totals
           (OBICalculator_init (25 # 1000) 10) example_bids example_asks 0).
  - repeat constructor; simpl; lra.
  - repeat constructor; simpl; lra.
  - reflexivity.
Defined.

(** ** A whole stream *)

Lemma observe_all_app (np_sqrt : Q -> option Q)
  (l1 l2 : list (Z * (list level * list level))) :
  forall self,
    observe_all np_sqrt self (l1 ++ l2)
    = observe_all np_sqrt (observe_all np_sqrt self l1) l2.
Proof.
  induction l1 as [|[t [bs az]] l1 IH]; intros self; simpl.
  - reflexivity.
  - apply IH.
Qed.

Lemma observe_all_window_ms (np_sqrt : Q -> option Q)
  (l : list (Z * (list level * list level))) :
  forall self,
    OBICalculator.window_ms (observe_all np_sqrt self l)
    = OBICalculator.window_ms self.
Proof.
  induction l as [|[t [bs az]] l IH]; intros self; simpl.
  - reflexivity.
  - rewrite IH.
    apply (proj1 (compute_alpha_history np_sqrt self t bs az)).
Qed.

Lemma compute_alpha_within_window (np_sqrt : Q -> option Q)
  (self : OBICalculator.t) (now : Z) (bs az : list level) :
  time_ordered (OBICalculator.history self) ->
  (0 <= OBICalculator.window_ms self)%Z ->
  within_window (fst (OBICalculator.compute_alpha np_sqrt self now bs az)) now.
Proof.
  intros Hsorted Hw.
  destruct (compute_alpha_history np_sqrt self now bs az) as [Hwin Hshape].
  pose proof (pop_while_older_keeps_recent
                (now - OBICalculator.window_ms self) _ Hsorted) as Hkept.
  unfold within_window. rewrite Hwin.
  destruct (snd (OBICalculator.compute_alpha np_sqrt self now bs az)).
  - destruct Hshape as [raw ->]. apply Forall_app. split; [exact Hkept|].
    constructor; [simpl; lia|constructor].
  - rewrite Hshape. exact Hkept.
Qed.

Lemma StronglySorted_app_inv_l {A : Type} (R : A -> A -> Prop)
  (l1 l2 : list A) :
  StronglySorted R (l1 ++ l2) -> StronglySorted R l1.
Proof.
  induction l1 as [|x l1 IH]; simpl; intros Hs.
  - constructor.
  - apply StronglySorted_inv in Hs as [Hs Hx]. constructor.
    + apply IH, Hs.
    + apply Forall_app in Hx. apply Hx.
Qed.

Lemma py_int_nonneg (x : Q) : 0 <= x -> (0 <= py_int x)%Z.
Proof.
  intros Hx. unfold py_int.
  destruct (Qle_bool 0 x) eqn:E.
  - change 0%Z with (Qfloor 0). apply Qfloor_resp_le. exact Hx.
  - apply Qle_bool_iff in Hx. congruence.
Qed.

(** X4.  A calculator built with a non-negative [window_minutes] and fed
    snapshots whose timestamps never decrease holds, after every snapshot,
    only samples at most [window_ms] older than that snapshot -- whether or
    not some of the snapshots made [compute_alpha] raise. *)
Theorem fresh_calculator_keeps_the_window (np_sqrt : Q -> option Q)
  (depth window_minutes : Q)
  (earlier : list (Z * (list level * list level)))
  (now : Z) (bs az : list level) :
  0 <= window_minutes ->
  StronglySorted Z.le (map fst (earlier ++ [(now, (bs, az))])) ->
  within_window
    (observe_all np_sqrt (OBICalculator_init depth window_minutes)
       (earlier ++ [(now, (bs, az))])) now.
Proof.
  intros Hwm Hts. rewrite observe_all_app. cbn [observe_all].
  apply compute_alpha_within_window.
  - apply observe_all_from_empty_time_ordered.
    rewrite map_app in Hts. apply StronglySorted_app_inv_l in Hts. exact Hts.
  - rewrite observe_all_window_ms. cbn [OBICalculator_init
      OBICalculator.window_ms].
    apply py_int_nonneg.
    apply Qmult_le_0_compat; [apply Qmult_le_0_compat|]; [exact Hwm|lra|lra].
Qed.

Lemma fresh_calculator_keeps_the_window_witness :
  within_window
    (observe_all exact_sqrt (OBICalculator_init (25 # 1000) (1 # 1000))
       ([ (100%Z, (example_bids, example_asks));
          (130%Z, ([], example_asks)) ]
        ++ [ (170%Z, (example_bids, example_asks)) ])) 170.
Proof.
  apply (fresh_calculator_keeps_the_window exact_sqrt (25 # 1000) (1 # 1000)
           [ (100%Z, (example_bids, example_asks));
             (130%Z, ([], example_asks)) ]
           170 example_bids example_asks).
  - lra.
  - repeat constructor; simpl; lia.
Defined.

(** ** Pricing *)

(** What a returned context is made of. *)
Lemma calculate_prices_inv (self : MarketMakingStrategy.t) (ex : exchange)
  (ctx ctx' : TickContext) :
  MarketMakingStrategy.calculate_prices self ex ctx = Ok ctx' ->
  let tick := MarketMakingStrategy.tick_size self in
  let best_bid := MarketMakingStrategy.best_or_zero (bids ctx) in
  let best_ask := MarketMakingStrategy.best_or_zero (asks ctx) in
  exists ps rb ra b a,
    fetch_positions ex = Ok ps
    /\ ~ tick == 0
    /\ (0 <= MarketMakingStrategy.precision self)%Z
    /\ (0 < tick -> rb < best_bid /\ best_ask < ra)
    /\ format_fixed (MarketMakingStrategy.precision self)
         (inject_Z (Qfloor (rb / tick)) * tick) = Ok b
    /\ format_fixed (MarketMakingStrategy.precision self)
         (inject_Z (Qceiling (ra / tick)) * tick) = Ok a
    /\ ctx' = mkTickContext (ts ctx) (bids ctx) (asks ctx) (alpha ctx)
                (Some ((best_bid + best_ask) / 2)) (Some b) (Some a)
                (Some (Qfloor (rb / tick))) (Some (Qceiling (ra / tick)))
                (Some (MarketMakingStrategy.current_position self ps))
                (buy_qty ctx) (sell_qty ctx).
Proof.
  cbv zeta. unfold MarketMakingStrategy.calculate_prices. cbv zeta.
  destruct (fetch_positions ex) as [ps|e]; [|discriminate].
  cbn [bind]. unfold py_div.
  destruct (Qeq_bool (MarketMakingStrategy.tick_size self) 0) eqn:Etick;
    [discriminate|].
  cbn [bind].
  destruct (Z.ltb_spec (MarketMakingStrategy.precision self) 0) as [Hneg|Hprec].
  { unfold format_fixed.
    destruct (Z.ltb_spec (MarketMakingStrategy.precision self) 0); [|lia].
    discriminate. }
  match goal with
  | |- context [format_fixed _ (inject_Z (Qfloor (?rb / _)) * _)] =>
      match goal with
      | |- context [format_fixed _ (inject_Z (Qceiling (?ra / _)) * _)] =>
          set (rbid := rb); set (rask := ra)
      end
  end.
  destruct (format_fixed _ (inject_Z (Qfloor _) * _)) as [b|e] eqn:Hb;
    [|discriminate].
  cbn [bind].
  destruct (format_fixed _ (inject_Z (Qceiling _) * _)) as [a|e] eqn:Ha;
    [|discriminate].
  cbn [bind]. intros E. injection E as <-.
  exists ps, rbid, rask, b, a.
  split; [reflexivity|].
  split; [intros H; apply Qeq_bool_iff in H; congruence|].
  split; [exact Hprec|].
  split; [intros Ht; split;
          [apply guarded_bid_below | apply guarded_ask_above]; exact Ht|].
  split; [exact Hb|]. split; [exact Ha|]. reflexivity.
Qed.

(** X6.  [calculate_prices] raises in three cases only, whatever the book,
    the signal and the position: the error of [fetch_positions] when that
    call raises, else [ZeroDivisionError] when the tick size is zero, else
    [ValueError] when the precision is negative; otherwise it returns a
    context. *)
Theorem calculate_prices_failure_modes (self : MarketMakingStrategy.t)
  (ex : exchange) (ctx : TickContext) :
  match fetch_positions ex with
  | Raise e => MarketMakingStrategy.calculate_prices self ex ctx = Raise e
  | Ok _ =>
      if Qeq_bool (MarketMakingStrategy.tick_size self) 0
      then MarketMakingStrategy.calculate_prices self ex ctx
           = Raise ZeroDivisionError
      else if (MarketMakingStrategy.precision self <? 0)%Z
           then MarketMakingStrategy.calculate_prices self ex ctx
                = Raise ValueError
           else exists ctx',
                  MarketMakingStrategy.calculate_prices self ex ctx = Ok ctx'
  end.
Proof.
  unfold MarketMakingStrategy.calculate_prices. cbv zeta.
  destruct (fetch_positions ex) as [ps|e]; [|reflexivity].
  cbn [bind]. unfold py_div.
  destruct (Qeq_bool (MarketMakingStrategy.tick_size self) 0); [reflexivity|].
  cbn [bind]. unfold format_fixed.
  destruct (MarketMakingStrategy.precision self <? 0)%Z; [reflexivity|].
  cbn [bind]. eexists. reflexivity.
Qed.

(** X7.  With a positive tick size and a book that is not crossed (best bid
    at most best ask, a missing side counting as 0.0), the bid tick of a
    returned context is strictly below its ask tick: the two quotes never
    meet. *)
Theorem quoted_ticks_never_meet (self : MarketMakingStrategy.t)
  (ex : exchange) (ctx ctx' : TickContext) :
  0 < MarketMakingStrategy.tick_size self ->
  MarketMakingStrategy.best_or_zero (bids ctx)
  <= MarketMakingStrategy.best_or_zero (asks ctx) ->
  MarketMakingStrategy.calculate_prices self ex ctx = Ok ctx' ->
  exists btk atk,
    bid_tick ctx' = Some btk /\ ask_tick ctx' = Some atk /\ (btk < atk)%Z.
Proof.
  intros Htick Hbook Hret.
  destruct (calculate_prices_inv self ex ctx ctx' Hret)
    as (ps & rb & ra & b & a & _ & _ & _ & Hguard & _ & _ & ->).
  destruct (Hguard Htick) as [Hrb Hra].
  do 2 eexists. cbn [bid_tick ask_tick]. split; [reflexivity|].
  split; [reflexivity|].
  pose proof (floor_tick_le rb _ Htick) as Hf.
  pose proof (ceiling_tick_ge ra _ Htick) as Hc.
  rewrite Zlt_Qlt.
  apply (Qmult_lt_r _ _ (MarketMakingStrategy.tick_size self) Htick).
  lra.
Qed.

Lemma quoted_ticks_never_meet_witness :
  exists btk atk,
    bid_tick example_target = Some btk
    /\ ask_tick example_target = Some atk
    /\ (btk < atk)%Z.
Proof.
  apply (quoted_ticks_never_meet example_strategy quiet_exchange
           (new_context 0 example_bids example_asks 0) example_target).
  - reflexivity.
  - simpl. lra.
  - vm_compute. reflexivity.
Defined.

(** X8.  On a decimal grid the quoted prices are exactly their ticks times
    the tick size, and dividing a quoted price by the tick size and rounding
    -- what [manage_orders] does with a resting order -- gives the tick
    back. *)
Theorem quoted_price_maps_back_to_its_tick (self : MarketMakingStrategy.t)
  (ex : exchange) (ctx ctx' : TickContext) :
  0 < MarketMakingStrategy.tick_size self ->
  decimal_grid self ->
  MarketMakingStrategy.calculate_prices self ex ctx = Ok ctx' ->
  exists btk atk b a rbid rask,
    bid_tick ctx' = Some btk /\ ask_tick ctx' = Some atk
    /\ bid_price ctx' = Some b /\ ask_price ctx' = Some a
    /\ b == inject_Z btk * MarketMakingStrategy.tick_size self
    /\ a == inject_Z atk * MarketMakingStrategy.tick_size self
    /\ py_div b (MarketMakingStrategy.tick_size self) = Ok rbid
    /\ py_round rbid = btk
    /\ py_div a (MarketMakingStrategy.tick_size self) = Ok rask
    /\ py_round rask = atk.
Proof.
  intros Htick [Hprec [k Hk]] Hret.
  destruct (calculate_prices_inv self ex ctx ctx' Hret)
    as (ps & rb & ra & b & a & _ & Hnz & _ & _ & Hb & Ha & ->).
  destruct (format_fixed_on_grid _ _ k
              (Qfloor (rb / MarketMakingStrategy.tick_size self)) Hprec Hk)
    as (b' & Hb' & Eb).
  destruct (format_fixed_on_grid _ _ k
              (Qceiling (ra / MarketMakingStrategy.tick_size self)) Hprec Hk)
    as (a' & Ha' & Ea).
  rewrite Hb in Hb'. injection Hb' as <-.
  rewrite Ha in Ha'. injection Ha' as <-.
  destruct (tick_of_grid_price b _ _ Hnz Eb) as (rbid & Hdb & Hrb).
  destruct (tick_of_grid_price a _ _ Hnz Ea) as (rask & Hda & Hra).
  do 2 eexists. exists b, a, rbid, rask. cbn [bid_tick ask_tick bid_price
    ask_price].
  repeat split; assumption.
Qed.

Lemma quoted_price_maps_back_to_its_tick_witness :
  exists rbid,
    py_div (999 # 10) (1 # 10) = Ok rbid /\ py_round rbid = 999%Z.
Proof.
  destruct (quoted_price_maps_back_to_its_tick example_strategy quiet_exchange
              (new_context 0 example_bids example_asks 0) example_target)
    as (btk & atk & b & a & rbid & rask & Hbt & _ & Hbp & _ & _ & _ & Hd & Hr & _).
  - reflexivity.
  - split; [simpl; lia | exists 1%Z; reflexivity].
  - vm_compute. reflexivity.
  - cbn in Hbt, Hbp. injection Hbt as <-. injection Hbp as <-.
    exists rbid. split; [exact Hd | exact Hr].
Defined.

(** ** Sizes and positions *)

(** X9.  With a non-negative [order_qty] the desired sizes are never
    negative; a filled buy never takes a position that was at most
    [order_qty] above [order_qty], a filled sell never takes a position that
    was at least [-order_qty] below [-order_qty]; and a position at or
    beyond the limit has size 0 on the side that would extend it. *)
Theorem desired_sizes_cap_inventory (self : MarketMakingStrategy.t) (pos : Q) :
  0 <= MarketMakingStrategy.order_qty self ->
  let bqty := fst (MarketMakingStrategy.desired_qty self pos) in
  let sqty := snd (MarketMakingStrategy.desired_qty self pos) in
  let limit := MarketMakingStrategy.order_qty self in
  0 <= bqty /\ 0 <= sqty
  /\ (pos <= limit -> pos + bqty <= limit)
  /\ (- limit <= pos -> - limit <= pos - sqty)
  /\ (limit <= pos -> bqty == 0)
  /\ (pos <= - limit -> sqty == 0).
Proof.
  intros Hq. cbv zeta. unfold MarketMakingStrategy.desired_qty, py_max.
  destruct (Qlt_le_dec 0 pos) as [Hlong|Hnl]; cbn [fst snd].
  - destruct (Qcompare_spec (MarketMakingStrategy.order_qty self - pos) 0)
      as [E|L|G];
      repeat split; intros; lra.
  - destruct (Qlt_le_dec pos 0) as [Hshort|Hns]; cbn [fst snd].
    + pose proof (Qabs_neg pos Hnl) as Habs.
      destruct (Qcompare_spec
                  (MarketMakingStrategy.order_qty self - Qabs pos) 0)
        as [E|L|G];
        repeat split; intros; lra.
    + repeat split; intros; lra.
Qed.

Lemma desired_sizes_cap_inventory_witness :
  let bqty := fst (MarketMakingStrategy.desired_qty example_strategy (2 # 5)) in
  (2 # 5) + bqty <= 1.
Proof.
  intros bqty.
  refine (proj1 (proj2 (proj2 (desired_sizes_cap_inventory example_strategy
                                 (2 # 5) _))) _).
  - simpl. lra.
  - simpl. lra.
Defined.

(** X10.  [current_position] skips the entries of other symbols: it is 0
    when no entry carries the strategy's symbol, and otherwise the value of
    the first entry that does -- its [positionAmt] when present, else its
    [contracts], negated for a side that reads "short" in any letter
    case. *)
Theorem current_position_reads_first_match (self : MarketMakingStrategy.t)
  (others : list pos_info) :
  Forall (fun p => pos_symbol p <> MarketMakingStrategy.symbol self) others ->
  MarketMakingStrategy.current_position self others = 0
  /\ forall (p : pos_info) (rest : list pos_info),
       pos_symbol p = MarketMakingStrategy.symbol self ->
       MarketMakingStrategy.current_position self (others ++ p :: rest)
       = match positionAmt p with
         | Some amount => amount
         | None =>
             if String.eqb (lower (pos_side p)) "short"
             then - contracts p else contracts p
         end.
Proof.
  induction 1 as [|o others Ho _ [IH0 IH]]; simpl.
  - split; [reflexivity|]. intros p rest Hp.
    apply String.eqb_eq in Hp. rewrite Hp. reflexivity.
  - apply String.eqb_neq in Ho. rewrite Ho. split; [exact IH0 | exact IH].
Qed.

Lemma current_position_reads_first_match_witness :
  MarketMakingStrategy.current_position example_strategy
    ([ mkPosInfo "ETH/USDT" (Some 5) 5 "long" ]
     ++ mkPosInfo "BTC/USDT" None (3 # 10) "SHORT"
     :: [ mkPosInfo "BTC/USDT" (Some 1) 1 "long" ])
  = - (3 # 10).
Proof.
  refine (proj2 (current_position_reads_first_match example_strategy
                   [ mkPosInfo "ETH/USDT" (Some 5) 5 "long" ] _)
            (mkPosInfo "BTC/USDT" None (3 # 10) "SHORT")
            [ mkPosInfo "BTC/USDT" (Some 1) 1 "long" ] eq_refl).
  repeat constructor. simpl. discriminate.
Defined.

(** ** Resting orders *)

(** X11.  A pass raises [ZeroDivisionError] exactly when the tick size is
    zero and at least one open order was fetched, and it does so before any
    call to the exchange or the logger. *)
Theorem pass_divides_by_zero_tick_only (self : MarketMakingStrategy.t)
  (ex : exchange) (ctx : TickContext) :
  (snd (MarketMakingStrategy.manage_orders self ex ctx)
   = Raise ZeroDivisionError
   <-> MarketMakingStrategy.tick_size self == 0
       /\ MarketMakingStrategy.open_orders_or_empty ex <> [])
  /\ (snd (MarketMakingStrategy.manage_orders self ex ctx)
      = Raise ZeroDivisionError ->
      fst (MarketMakingStrategy.manage_orders self ex ctx) = []).
Proof.
  unfold MarketMakingStrategy.manage_orders. cbv zeta.
  destruct (MarketMakingStrategy.open_orders_or_empty ex) as [|o rest].
  - cbn [MarketMakingStrategy.existing_ticks].
    destruct (position ctx) as [pos|]; cbn [fst snd].
    + destruct (MarketMakingStrategy.desired_qty self pos) as [bqty sqty].
      destruct (_ ++ _) as [|r rs].
      * split; [split; [discriminate | intros [_ H]; congruence]
               | discriminate].
      * unfold log. cbn [bids asks].
        destruct (bids ctx), (asks ctx); cbn [fst snd bind];
          (split; [split; [discriminate | intros [_ H]; congruence]
                  | discriminate]).
    + split; [split; [discriminate | intros [_ H]; congruence]
             | discriminate].
  - destruct (Qeq_bool (MarketMakingStrategy.tick_size self) 0) eqn:E.
    + cbn [MarketMakingStrategy.existing_ticks]. unfold py_div.
      rewrite E. cbn [bind fst snd].
      apply Qeq_bool_iff in E.
      split; [split; [intros _; split; [exact E | discriminate]
                     | reflexivity]
             | reflexivity].
    + assert (Ht : ~ MarketMakingStrategy.tick_size self == 0).
      { intros H. apply Qeq_bool_iff in H. congruence. }
      destruct (existing_ticks_total self (o :: rest) Ht ∅ ∅)
        as (eb & es & ->).
      destruct (position ctx) as [pos|]; cbn [fst snd].
      * destruct (MarketMakingStrategy.desired_qty self pos) as [bqty sqty].
        destruct (_ ++ _) as [|r rs].
        -- split; [split; [discriminate | intros [H _]; contradiction]
                  | discriminate].
        -- unfold log. cbn [bids asks].
           destruct (bids ctx), (asks ctx); cbn [fst snd bind];
             (split; [split; [discriminate | intros [H _]; contradiction]
                     | discriminate]).
      * split; [split; [discriminate | intros [H _]; contradiction]
               | discriminate].
Qed.

(** X12.  The tick sets a pass compares the target with hold exactly the
    rounded [price / tick_size] of the fetched orders whose side is "buy",
    respectively "sell"; an order with any other side counts on neither
    side, and an order without a price counts at tick 0. *)
Theorem resting_tick_sets_follow_the_orders (self : MarketMakingStrategy.t)
  (orders : list open_order) (eb es : gset Z) :
  MarketMakingStrategy.existing_ticks self orders ∅ ∅ = Ok (eb, es) ->
  forall k : Z,
    (k ∈ eb <->
     exists o ratio,
       In o orders /\ order_side o = "buy"
       /\ py_div (default 0 (order_price o))
            (MarketMakingStrategy.tick_size self) = Ok ratio
       /\ py_round ratio = k)
    /\ (k ∈ es <->
        exists o ratio,
          In o orders /\ order_side o = "sell"
          /\ py_div (default 0 (order_price o))
               (MarketMakingStrategy.tick_size self) = Ok ratio
          /\ py_round ratio = k).
Proof.
  intros Hrun k.
  destruct (existing_ticks_spec self orders ∅ ∅ eb es Hrun k) as [Hb Hs].
  split.
  - rewrite Hb. split; [intros [H|H]; [set_solver | exact H] | auto].
  - rewrite Hs. split; [intros [H|H]; [set_solver | exact H] | auto].
Qed.

Lemma resting_tick_sets_follow_the_orders_witness :
  exists eb es : gset Z,
    MarketMakingStrategy.existing_ticks example_strategy
      [ mkOpenOrder (Some (999 # 10)) "buy"; mkOpenOrder None "sell";
        mkOpenOrder (Some 100) "stop" ] ∅ ∅ = Ok (eb, es)
    /\ (999%Z ∈ eb <->
        exists o ratio,
          In o [ mkOpenOrder (Some (999 # 10)) "buy"; mkOpenOrder None "sell";
                 mkOpenOrder (Some 100) "stop" ]
          /\ order_side o = "buy"
          /\ py_div (default 0 (order_price o)) (1 # 10) = Ok ratio
          /\ py_round ratio = 999%Z).
Proof.
  do 2 eexists. split; [vm_compute; reflexivity|].
  refine (proj1 (resting_tick_sets_follow_the_orders example_strategy
                   [ mkOpenOrder (Some (999 # 10)) "buy";
                     mkOpenOrder None "sell";
                     mkOpenOrder (Some 100) "stop" ] _ _ _ 999%Z)).
  vm_compute. reflexivity.
Defined.

(** ** What a pass sends *)

(** X13.  Every batch a pass hands to [create_orders] is non-empty, holds
    at most one buy followed by at most one sell, and each of its items is a
    GTC limit order on the strategy's symbol for a strictly positive amount:
    no order of size zero or less is ever sent. *)
Theorem created_batches_are_well_formed (self : MarketMakingStrategy.t)
  (ex : exchange) (ctx : TickContext) :
  Forall (fun e =>
            match e with
            | CreateOrders batch =>
                Forall (well_formed_request self) batch
                /\ (map req_side batch = ["buy"]
                    \/ map req_side batch = ["sell"]
                    \/ map req_side batch = ["buy"; "sell"])
            | _ => True
            end)
    (fst (MarketMakingStrategy.manage_orders self ex ctx)).
Proof.
  unfold MarketMakingStrategy.manage_orders. cbv zeta.
  destruct (MarketMakingStrategy.existing_ticks _ _ _ _) as [[eb es]|e];
    [|constructor].
  destruct (position ctx) as [pos|]; [|constructor].
  destruct (MarketMakingStrategy.desired_qty self pos) as [bqty sqty].
  destruct (MarketMakingStrategy.not_in (bid_tick ctx) eb);
    destruct (negb (Qle_bool bqty 0)) eqn:Eb;
    destruct (MarketMakingStrategy.not_in (ask_tick ctx) es);
    destruct (negb (Qle_bool sqty 0)) eqn:Es;
    cbn [andb app]; try constructor;
    try apply positive_qty in Eb; try apply positive_qty in Es;
    unfold log; cbn [bids asks];
    destruct (bids ctx), (asks ctx); cbn [fst];
    repeat match goal with
      | |- Forall _ [] => constructor
      | |- Forall _ (_ :: _) => constructor
      | |- True => exact I
      | |- _ /\ _ => split
      | |- well_formed_request _ _ =>
          unfold well_formed_request, MarketMakingStrategy.limit_order; cbn
      | |- 0 < _ => assumption
      | |- _ = _ => reflexivity
      | |- _ \/ _ =>
          first [ left; reflexivity | right; left; reflexivity
                | right; right; reflexivity | right; reflexivity ]
      end.
Qed.



(** X15.  A tick whose pricing fails reaches neither the exchange's order
    calls nor the logger: [on_tick] raises the error of [calculate_prices]
    with an empty trace -- when the positions cannot be fetched, when the
    tick size is zero, when the precision is negative. *)
Theorem failed_pricing_sends_nothing (self : MarketMakingStrategy.t)
  (ex : exchange) (now : Z) (bs az : list level) (signal : Q) :
  match fetch_positions ex with
  | Raise e =>
      MarketMakingStrategy.on_tick self ex now bs az signal = ([], Raise e)
  | Ok _ =>
      if Qeq_bool (MarketMakingStrategy.tick_size self) 0
      then MarketMakingStrategy.on_tick self ex now bs az signal
           = ([], Raise ZeroDivisionError)
      else if (MarketMakingStrategy.precision self <? 0)%Z
           then MarketMakingStrategy.on_tick self ex now bs az signal
                = ([], Raise ValueError)
           else exists ctx',
                  MarketMakingStrategy.calculate_prices self ex
                    (new_context now bs az signal) = Ok ctx'
                  /\ fst (MarketMakingStrategy.on_tick self ex now bs az signal)
                     = fst (MarketMakingStrategy.manage_orders self ex ctx')
  end.
Proof.
  unfold MarketMakingStrategy.on_tick. cbv zeta.
  unfold MarketMakingStrategy.calculate_prices. cbv zeta.
  destruct (fetch_positions ex) as [ps|e]; [|reflexivity].
  cbn [bind]. unfold py_div.
  destruct (Qeq_bool (MarketMakingStrategy.tick_size self) 0); [reflexivity|].
  cbn [bind]. unfold format_fixed.
  destruct (MarketMakingStrategy.precision self <? 0)%Z; [reflexivity|].
  cbn [bind]. eexists. split; [reflexivity|].
  destruct (MarketMakingStrategy.manage_orders _ _ _). reflexivity.
Qed.

(** ** The same market, twice *)

Lemma calculate_prices_ts_irrelevant (self : MarketMakingStrategy.t)
  (ex ex' : exchange) (now now' : Z) (bs az : list level) (signal : Q)
  (ctx' : TickContext) :
  fetch_positions ex' = fetch_positions ex ->
  MarketMakingStrategy.calculate_prices self ex (new_context now bs az signal)
  = Ok ctx' ->
  MarketMakingStrategy.calculate_prices self ex'
    (new_context now' bs az signal) = Ok (with_ts now' ctx').
Proof.
  intros Hfetch H.
  unfold MarketMakingStrategy.calculate_prices in *. cbv zeta in *.
  rewrite Hfetch.
  cbn [new_context ts bids asks alpha buy_qty sell_qty] in *.
  repeat match type of H with
    | bind ?r _ = _ =>
        destruct r; cbn [bind] in H |- *; [|discriminate H]
    end.
  injection H as <-. reflexivity.
Qed.

Lemma first_pass_on_empty_book (self : MarketMakingStrategy.t)
  (positions : result (list pos_info)) (ctx : TickContext)
  (btk atk : Z) (pos : Q) :
  bid_tick ctx = Some btk ->
  ask_tick ctx = Some atk ->
  position ctx = Some pos ->
  let bqty := fst (MarketMakingStrategy.desired_qty self pos) in
  let sqty := snd (MarketMakingStrategy.desired_qty self pos) in
  book_after
    (fst (MarketMakingStrategy.manage_orders self
            (mkExchange positions (Ok [])) ctx)) []
  = (if negb (Qle_bool bqty 0)
     then [mkOpenOrder (bid_price ctx) "buy"] else [])
    ++ (if negb (Qle_bool sqty 0)
        then [mkOpenOrder (ask_price ctx) "sell"] else []).
Proof.
  intros Hbt Hat Hpos. cbv zeta.
  unfold MarketMakingStrategy.manage_orders. cbv zeta.
  cbn [MarketMakingStrategy.open_orders_or_empty fetch_open_orders
       MarketMakingStrategy.existing_ticks].
  rewrite Hpos, Hbt, Hat.
  destruct (MarketMakingStrategy.desired_qty self pos) as [bqty sqty].
  cbn [fst snd]. unfold MarketMakingStrategy.not_in.
  rewrite !(bool_decide_eq_false_2 (_ ∈ (∅ : gset Z))) by set_solver.
  cbn [negb andb].
  destruct (negb (Qle_bool bqty 0)); destruct (negb (Qle_bool sqty 0));
    cbn [app]; try reflexivity;
    unfold log; cbn [bids asks];
    destruct (bids ctx), (asks ctx); reflexivity.
Qed.

(** X16.  Quoting the same market twice places the orders once.  With a
    positive tick size on a decimal grid and nothing resting, let a first
    [on_tick] run and the exchange carry out what it sent; a second
    [on_tick] on the same book, signal and positions then finds its targets
    resting and makes no call at all. *)
Theorem same_market_twice_quotes_once (self : MarketMakingStrategy.t)
  (ps : list pos_info) (now now' : Z) (bs az : list level) (signal : Q) :
  0 < MarketMakingStrategy.tick_size self ->
  decimal_grid self ->
  let first_tick :=
    MarketMakingStrategy.on_tick self (mkExchange (Ok ps) (Ok []))
      now bs az signal in
  let resting := book_after (fst first_tick) [] in
  fst (MarketMakingStrategy.on_tick self (mkExchange (Ok ps) (Ok resting))
         now' bs az signal) = [].
Proof.
  intros Htick Hgrid. cbv zeta.
  assert (Hnz : ~ MarketMakingStrategy.tick_size self == 0) by lra.
  destruct Hgrid as [Hprec [k Hk]].
  unfold MarketMakingStrategy.on_tick. cbv zeta.
  destruct (MarketMakingStrategy.calculate_prices self
              (mkExchange (Ok ps) (Ok [])) (new_context now bs az signal))
    as [c1|e] eqn:Hc1.
  - match goal with
    | |- context [mkExchange (Ok ps) (Ok (book_after ?t []))] =>
        rewrite (calculate_prices_ts_irrelevant self
                   (mkExchange (Ok ps) (Ok []))
                   (mkExchange (Ok ps) (Ok (book_after t [])))
                   now now' bs az signal c1 eq_refl Hc1)
    end.
    destruct (calculate_prices_inv _ _ _ _ Hc1)
      as (ps' & rb & ra & b & a & _ & _ & _ & _ & Hb & Ha & Ec1).
    destruct (format_fixed_on_grid _ _ k
                (Qfloor (rb / MarketMakingStrategy.tick_size self)) Hprec Hk)
      as (b' & Hb' & Eb).
    destruct (format_fixed_on_grid _ _ k
                (Qceiling (ra / MarketMakingStrategy.tick_size self)) Hprec Hk)
      as (a' & Ha' & Ea).
    rewrite Hb in Hb'. injection Hb' as <-.
    rewrite Ha in Ha'. injection Ha' as <-.
    assert (Hfirst :
      book_after
        (fst (let '(trace, outcome) :=
                MarketMakingStrategy.manage_orders self
                  (mkExchange (Ok ps) (Ok [])) c1 in
              (trace, let* _ := outcome in Ok tt))) []
      = book_after
          (fst (MarketMakingStrategy.manage_orders self
                  (mkExchange (Ok ps) (Ok [])) c1)) []).
    { destruct (MarketMakingStrategy.manage_orders _ _ c1). reflexivity. }
    rewrite Hfirst.
    rewrite (first_pass_on_empty_book self (Ok ps) c1 _ _ _
               ltac:(rewrite Ec1; reflexivity) ltac:(rewrite Ec1; reflexivity)
               ltac:(rewrite Ec1; reflexivity)).
    assert (Hbp : bid_price c1 = Some b) by (rewrite Ec1; reflexivity).
    assert (Hap : ask_price c1 = Some a) by (rewrite Ec1; reflexivity).
    rewrite Hbp, Hap.
    rewrite (pass_is_quiet_on_full_quote self (Ok ps) (with_ts now' c1)
               (Qfloor (rb / MarketMakingStrategy.tick_size self))
               (Qceiling (ra / MarketMakingStrategy.tick_size self)) b a
               (MarketMakingStrategy.current_position self ps')).
    + reflexivity.
    + rewrite Ec1. reflexivity.
    + rewrite Ec1. reflexivity.
    + rewrite Ec1. reflexivity.
    + rewrite Ec1. reflexivity.
    + rewrite Ec1. reflexivity.
    + exact Hnz.
    + exact Eb.
    + exact Ea.
  - exfalso. revert Hc1.
    unfold MarketMakingStrategy.calculate_prices. cbv zeta.
    cbn [fetch_positions bind]. rewrite !py_div_nonzero by exact Hnz.
    cbn [bind]. unfold format_fixed.
    destruct (Z.ltb_spec (MarketMakingStrategy.precision self) 0); [lia|].
    cbn [bind]. discriminate.
Qed.

Lemma same_market_twice_quotes_once_witness :
  let first_tick :=
    MarketMakingStrategy.on_tick example_strategy (mkExchange (Ok []) (Ok []))
      0 example_bids example_asks 0 in
  fst (MarketMakingStrategy.on_tick example_strategy
         (mkExchange (Ok []) (Ok (book_after (fst first_tick) [])))
         1000 example_bids example_asks 0) = [].
Proof.
  apply (same_market_twice_quotes_once example_strategy [] 0 1000
           example_bids example_asks 0).
  - reflexivity.
  - split; [simpl; lia | exists 1%Z; reflexivity].
Defined.

(** ** The precision derived from the tick size *)

Lemma find_upwards (P : Z -> bool) (lo : Z) (n : nat) :
  forall (s : nat) (p : Z),
    List.find P (map (fun i => (lo + Z.of_nat i)%Z) (seq s n)) = Some p ->
    P p = true
    /\ (lo + Z.of_nat s <= p < lo + Z.of_nat s + Z.of_nat n)%Z
    /\ forall q, (lo + Z.of_nat s <= q < p)%Z -> P q = false.
Proof.
  induction n as [|n IH]; intros s p; cbn [seq map List.find].
  - discriminate.
  - destruct (P (lo + Z.of_nat s)%Z) eqn:E.
    + intros H. injection H as <-. split; [exact E|]. split; [lia|].
      intros q Hq. lia.
    + intros H. destruct (IH (S s) p H) as (Hp & Hrange & Hbelow).
      split; [exact Hp|]. split; [lia|].
      intros q Hq.
      destruct (Z.eq_dec q (lo + Z.of_nat s)%Z) as [->|Hne]; [exact E|].
      apply Hbelow. lia.
Qed.

Lemma find_upwards_exists (P : Z -> bool) (lo : Z) (n : nat) :
  forall (s : nat) (q : Z),
    (lo + Z.of_nat s <= q < lo + Z.of_nat s + Z.of_nat n)%Z ->
    P q = true ->
    exists p,
      List.find P (map (fun i => (lo + Z.of_nat i)%Z) (seq s n)) = Some p.
Proof.
  induction n as [|n IH]; intros s q Hq Hp; cbn [seq map List.find].
  - lia.
  - destruct (P (lo + Z.of_nat s)%Z) eqn:E.
    + eexists. reflexivity.
    + apply (IH (S s) q); [|exact Hp].
      destruct (Z.eq_dec q (lo + Z.of_nat s)%Z) as [->|Hne]; [congruence|lia].
Qed.

Lemma pow10_mono (a b : Z) : (a <= b)%Z -> 10 ^ a <= 10 ^ b.
Proof.
  intros H. apply Qpower_le_compat_l; [exact H|]. discriminate.
Qed.

Lemma pow10_add (a b : Z) : 10 ^ (a + b) == 10 ^ a * 10 ^ b.
Proof.
  apply Qpower_plus. discriminate.
Qed.

Lemma below_pow10_of_log2 (z : Z) :
  (0 < z)%Z -> inject_Z z < 10 ^ (Z.log2 z + 1).
Proof.
  intros Hz.
  pose proof (Z.log2_nonneg z) as Hlog.
  destruct (Z.log2_spec z Hz) as [_ Hup].
  replace (Z.succ (Z.log2 z)) with (Z.log2 z + 1)%Z in Hup by lia.
  assert (Hpow : (2 ^ (Z.log2 z + 1) <= 10 ^ (Z.log2 z + 1))%Z)
    by (apply Z.pow_le_mono_l; lia).
  assert (Hlt : (z < 10 ^ (Z.log2 z + 1))%Z) by lia.
  rewrite Zlt_Qlt in Hlt.
  rewrite Zpower_Qpower in Hlt by lia. exact Hlt.
Qed.

Lemma square_lt (x y : Q) : 0 < x -> x < y -> x * x < y * y.
Proof.
  intros Hx Hxy. apply Qmult_lt_compat_nonneg; split; lra.
Qed.

(** [round_neg_log10] finds the decimal bracket of every positive number. *)
Lemma round_neg_log10_spec (t : Q) :
  0 < t ->
  exists p,
    round_neg_log10 t = Some p
    /\ 10 ^ (- (2 * p + 1)) <= t * t
    /\ t * t < 10 ^ (- (2 * p - 1)).
Proof.
  intros Ht.
  assert (Hn : (0 < Qnum t)%Z).
  { destruct t as [n d]. unfold Qlt in Ht. simpl in *. lia. }
  set (L := Z.log2 (Qnum t)). set (D := Z.log2 (Z.pos (Qden t))).
  assert (HL : (0 <= L)%Z) by apply Z.log2_nonneg.
  assert (HD : (0 <= D)%Z) by apply Z.log2_nonneg.
  (* t lies strictly between 10^-(D+1) and 10^(L+1) *)
  assert (Hup : t < 10 ^ (L + 1)).
  { apply Qle_lt_trans with (inject_Z (Qnum t));
      [|apply below_pow10_of_log2; exact Hn].
    destruct t as [n d]. unfold Qle. simpl in *. nia. }
  assert (Hdown : 10 ^ (- (D + 1)) < t).
  { apply Qlt_le_trans with (1 # Qden t).
    - rewrite Qpower_opp.
      assert (Hd : inject_Z (Z.pos (Qden t)) < 10 ^ (D + 1))
        by (apply below_pow10_of_log2; lia).
      assert (Hdpos : 0 < inject_Z (Z.pos (Qden t))) by reflexivity.
      apply (proj1 (Qinv_lt_contravar _ _ Hdpos (pow10_pos (D + 1)))) in Hd.
      exact Hd.
    - destruct t as [n d]. unfold Qle. simpl in *. nia. }
  assert (Hlow_false : in_bracket_from t (- L - 2) = false).
  { unfold in_bracket_from. destruct (Qle_bool _ _) eqn:E; [|reflexivity].
    apply Qle_bool_iff in E. exfalso.
    pose proof (square_lt t _ Ht Hup) as Hsq.
    rewrite <- pow10_add in Hsq.
    pose proof (pow10_mono (L + 1 + (L + 1)) (- (2 * (- L - 2) + 1))
                  ltac:(lia)).
    lra. }
  assert (Hhigh_true : in_bracket_from t (D + 2) = true).
  { unfold in_bracket_from. apply Qle_bool_iff.
    pose proof (square_lt _ t (pow10_pos _) Hdown) as Hsq.
    rewrite <- pow10_add in Hsq.
    pose proof (pow10_mono (- (2 * (D + 2) + 1)) (- (D + 1) + - (D + 1))
                  ltac:(lia)).
    lra. }
  unfold round_neg_log10. fold L. fold D.
  destruct (find_upwards_exists (in_bracket_from t) (- L - 2)
              (Z.to_nat (D + 2 - (- L - 2) + 1)) 0 (D + 2)
              ltac:(lia) Hhigh_true) as [p Hp].
  exists p. split; [exact Hp|].
  destruct (find_upwards _ _ _ _ _ Hp) as (Hin & Hrange & Hbelow).
  split.
  - apply Qle_bool_iff. exact Hin.
  - assert (Hprev : in_bracket_from t (p - 1) = false).
    { destruct (Z.eq_dec p (- L - 2)%Z) as [->|Hne]; [congruence|].
      apply Hbelow. lia. }
    unfold in_bracket_from in Hprev.
    apply Qnot_le_lt. intros Hle.
    replace (- (2 * p - 1))%Z with (- (2 * (p - 1) + 1))%Z in Hle by lia.
    apply Qle_bool_iff in Hle. congruence.
Qed.

(** The bracket determines the integer. *)
Lemma decimal_bracket_unique (x : Q) (p q : Z) :
  10 ^ (- (2 * p + 1)) <= x -> x < 10 ^ (- (2 * p - 1)) ->
  10 ^ (- (2 * q + 1)) <= x -> x < 10 ^ (- (2 * q - 1)) ->
  p = q.
Proof.
  intros Hp1 Hp2 Hq1 Hq2.
  destruct (Z.lt_trichotomy p q) as [H|[H|H]]; [exfalso|exact H|exfalso].
  - pose proof (pow10_mono (- (2 * q - 1)) (- (2 * p + 1)) ltac:(lia)). lra.
  - pose proof (pow10_mono (- (2 * p - 1)) (- (2 * q + 1)) ltac:(lia)). lra.
Qed.

Lemma initialize_inv (self s' : MarketMakingStrategy.t) (t : Q) :
  MarketMakingStrategy.initialize self t = Ok s' ->
  0 < t
  /\ MarketMakingStrategy.tick_size s' = t
  /\ MarketMakingStrategy.symbol s' = MarketMakingStrategy.symbol self
  /\ MarketMakingStrategy.order_qty s' = MarketMakingStrategy.order_qty self
  /\ MarketMakingStrategy.c1 s' = MarketMakingStrategy.c1 self
  /\ MarketMakingStrategy.half_spread s'
     = MarketMakingStrategy.half_spread self
  /\ MarketMakingStrategy.skew s' = MarketMakingStrategy.skew self
  /\ 10 ^ (- (2 * MarketMakingStrategy.precision s' + 1)) <= t * t
  /\ t * t < 10 ^ (- (2 * MarketMakingStrategy.precision s' - 1)).
Proof.
  unfold MarketMakingStrategy.initialize.
  destruct (Qle_bool t 0) eqn:E; [discriminate|].
  assert (Ht : 0 < t).
  { apply Qnot_le_lt. intros H. apply Qle_bool_iff in H. congruence. }
  destruct (round_neg_log10_spec t Ht) as (p & -> & Hlo & Hhi).
  intros H. injection H as <-. cbn. repeat split; assumption.
Qed.

(** X17.  A successful [initialize] leaves a strictly positive tick size --
    so no later division by the tick size can fail --, the one resolved
    from the listed market of the strategy's symbol, a precision [p] with
    [10^-(p + 1/2) <= tick_size < 10^-(p - 1/2)] (stated on squares), and
    the quoting parameters untouched. *)
Theorem initialize_stores_a_positive_tick (self s' : MarketMakingStrategy.t)
  (markets : gmap string Markets.market) :
  Markets.initialize self markets = Ok s' ->
  exists m,
    markets !! MarketMakingStrategy.symbol self = Some m
    /\ MarketMakingStrategy.tick_size s' = Markets.resolve_tick_size m
    /\ 0 < MarketMakingStrategy.tick_size s'
    /\ 10 ^ (- (2 * MarketMakingStrategy.precision s' + 1))
       <= MarketMakingStrategy.tick_size s' * MarketMakingStrategy.tick_size s'
    /\ MarketMakingStrategy.tick_size s' * MarketMakingStrategy.tick_size s'
       < 10 ^ (- (2 * MarketMakingStrategy.precision s' - 1))
    /\ MarketMakingStrategy.symbol s' = MarketMakingStrategy.symbol self
    /\ MarketMakingStrategy.order_qty s' = MarketMakingStrategy.order_qty self
    /\ MarketMakingStrategy.c1 s' = MarketMakingStrategy.c1 self
    /\ MarketMakingStrategy.half_spread s'
       = MarketMakingStrategy.half_spread self
    /\ MarketMakingStrategy.skew s' = MarketMakingStrategy.skew self.
Proof.
  unfold Markets.initialize.
  destruct (markets !! MarketMakingStrategy.symbol self) as [m|];
    [|discriminate].
  intros H. exists m. split; [reflexivity|].
  destruct (initialize_inv _ _ _ H)
    as (Ht & Etick & Es & Eq & Ec & Eh & Ek & Hlo & Hhi).
  rewrite Etick. repeat split; assumption.
Qed.

Lemma initialize_stores_a_positive_tick_witness :
  let markets : gmap string Markets.market :=
    {[ "BTC/USDT" :=
         Markets.mkMarket
           (Some [ Markets.mkFilter (Some "LOT_SIZE") None;
                   Markets.mkFilter (Some "PRICE_FILTER") (Some (1 # 10)) ])
           (Some (Some 2%Z)) None ]} in
  Markets.initialize example_params markets = Ok example_strategy
  /\ 0 < MarketMakingStrategy.tick_size example_strategy.
Proof.
  intros markets.
  assert (H : Markets.initialize example_params markets = Ok example_strategy)
    by (vm_compute; reflexivity).
  split; [exact H|].
  destruct (initialize_stores_a_positive_tick example_params example_strategy
              markets H) as (m & _ & _ & Hpos & _).
  exact Hpos.
Defined.

(** X19.  Among the filters only the first [PRICE_FILTER] counts: the
    entries before it are skipped whatever they hold, the entries after it
    are never read, and a missing or unreadable [tickSize] in it counts as
    0.0. *)
Theorem first_price_filter_decides (before after : list Markets.market_filter)
  (f : Markets.market_filter) :
  Forall (fun g => Markets.filterType g <> Some "PRICE_FILTER") before ->
  Markets.filterType f = Some "PRICE_FILTER" ->
  Markets.tick_from_filters (before ++ f :: after)
  = default 0 (Markets.tickSize f)
  /\ Markets.tick_from_filters before = 0.
Proof.
  intros Hbefore Hf.
  induction Hbefore as [|g before Hg _ [IH IH0]]; simpl.
  - rewrite Hf. cbn. split; reflexivity.
  - destruct (Markets.filterType g) as [ty|] eqn:Ety.
    + destruct (String.eqb ty "PRICE_FILTER") eqn:E.
      * apply String.eqb_eq in E. subst ty. contradiction.
      * split; [exact IH | exact IH0].
    + split; [exact IH | exact IH0].
Qed.

Lemma first_price_filter_decides_witness :
  Markets.tick_from_filters
    ([ Markets.mkFilter (Some "LOT_SIZE") (Some 1) ]
     ++ Markets.mkFilter (Some "PRICE_FILTER") None
     :: [ Markets.mkFilter (Some "PRICE_FILTER") (Some (1 # 10)) ])
  = 0.
Proof.
  refine (proj1 (first_price_filter_decides
                   [ Markets.mkFilter (Some "LOT_SIZE") (Some 1) ]
                   [ Markets.mkFilter (Some "PRICE_FILTER") (Some (1 # 10)) ]
                   (Markets.mkFilter (Some "PRICE_FILTER") None) _ eq_refl)).
  repeat constructor. simpl. discriminate.
Defined.

(** X20.  The three sources of the tick size are tried in a fixed order: a
    positive tick size from the filters is final; otherwise a readable
    [precision['price']] of [d] digits gives [1 / 10^d], which is final;
    otherwise a readable [info['pricePrecision']] gives [1 / 10^d]. *)
Theorem tick_size_sources_in_order (m : Markets.market) :
  let from_filters :=
    match Markets.filters m with
    | Some fs => Markets.tick_from_filters fs
    | None => 0
    end in
  (0 < from_filters -> Markets.resolve_tick_size m = from_filters)
  /\ (from_filters <= 0 ->
      forall d, Markets.precision_price m = Some (Some d) ->
                Markets.resolve_tick_size m = 1 / 10 ^ d)
  /\ (from_filters <= 0 ->
      Markets.precision_price m = None
      \/ Markets.precision_price m = Some None ->
      forall d, Markets.pricePrecision m = Some (Some d) ->
                Markets.resolve_tick_size m = 1 / 10 ^ d).
Proof.
  cbv zeta. unfold Markets.resolve_tick_size. cbv zeta.
  set (ff := match Markets.filters m with
             | Some fs => Markets.tick_from_filters fs
             | None => 0
             end).
  assert (Hpow : forall d, Qle_bool (1 / 10 ^ d) 0 = false).
  { intros d. destruct (Qle_bool (1 / 10 ^ d) 0) eqn:E; [|reflexivity].
    apply Qle_bool_iff in E. pose proof (pow10_pos d) as Hp.
    assert (0 < 1 / 10 ^ d).
    { unfold Qdiv. rewrite Qmult_1_l. apply Qinv_lt_0_compat. exact Hp. }
    lra. }
  assert (Hle : forall x, x <= 0 -> Qle_bool x 0 = true)
    by (intros x Hx; apply Qle_bool_iff; exact Hx).
  assert (Hgt : forall x, 0 < x -> Qle_bool x 0 = false).
  { intros x Hx. destruct (Qle_bool x 0) eqn:E; [|reflexivity].
    apply Qle_bool_iff in E. lra. }
  repeat split.
  - intros Hpos. unfold Markets.tick_from_precision.
    rewrite (Hgt _ Hpos). rewrite (Hgt _ Hpos). reflexivity.
  - intros Hnon d ->. unfold Markets.tick_from_precision.
    rewrite (Hle _ Hnon), Hpow. reflexivity.
  - intros Hnon [-> | ->] d ->; unfold Markets.tick_from_precision;
      rewrite (Hle _ Hnon).
    + rewrite (Hle _ Hnon). reflexivity.
    + rewrite (Hle 0) by lra. reflexivity.
Qed.

Lemma tick_size_sources_in_order_witness :
  Markets.resolve_tick_size
    (Markets.mkMarket
       (Some [ Markets.mkFilter (Some "PRICE_FILTER") None ])
       (Some (Some 2%Z)) (Some (Some 5%Z)))
  = 1 / 10 ^ 2.
Proof.
  refine (proj1 (proj2 (tick_size_sources_in_order
                          (Markets.mkMarket
                             (Some [ Markets.mkFilter (Some "PRICE_FILTER") None ])
                             (Some (Some 2%Z)) (Some (Some 5%Z))))) _ 2%Z
            eq_refl).
  simpl. lra.
Defined.

(** X21.  A decimal tick size gets its own number of digits: for every
    integer [d], [initialize] on a tick size equal to [10^-d] stores the
    precision [d]; for [d >= 0] the strategy then quotes on a decimal
    grid. *)
Theorem decimal_tick_gets_its_precision (self : MarketMakingStrategy.t)
  (t : Q) (d : Z) :
  t == 10 ^ (- d) ->
  exists s',
    MarketMakingStrategy.initialize self t = Ok s'
    /\ MarketMakingStrategy.tick_size s' = t
    /\ MarketMakingStrategy.precision s' = d
    /\ ((0 <= d)%Z -> decimal_grid s').
Proof.
  intros Et.
  assert (Ht : 0 < t) by (rewrite Et; apply pow10_pos).
  destruct (MarketMakingStrategy.initialize self t) as [s'|e] eqn:Hinit.
  - exists s'. split; [reflexivity|].
    destruct (initialize_inv _ _ _ Hinit)
      as (_ & Etick & _ & _ & _ & _ & _ & Hlo & Hhi).
    assert (Esq : t * t == 10 ^ (- (2 * d))).
    { rewrite Et, <- pow10_add.
      replace (- d + - d)%Z with (- (2 * d))%Z by lia. reflexivity. }
    assert (Hp : MarketMakingStrategy.precision s' = d).
    { apply (decimal_bracket_unique (t * t)); try assumption.
      - rewrite Esq. apply pow10_mono. lia.
      - rewrite Esq.
        assert (H10 : 10 ^ (- (2 * d - 1)) == 10 ^ (- (2 * d)) * 10 ^ 1).
        { rewrite <- pow10_add. replace (- (2 * d) + 1)%Z
            with (- (2 * d - 1))%Z by lia. reflexivity. }
        rewrite H10. pose proof (pow10_pos (- (2 * d))).
        change (10 ^ 1) with 10. lra. }
    split; [exact Etick|]. split; [exact Hp|].
    intros Hd. unfold decimal_grid. rewrite Hp, Etick. split; [exact Hd|].
    exists 1%Z. rewrite Et, <- pow10_add.
    replace (- d + d)%Z with 0%Z by lia. reflexivity.
  - exfalso. unfold MarketMakingStrategy.initialize in Hinit.
    destruct (Qle_bool t 0) eqn:E; [|discriminate].
    apply Qle_bool_iff in E. lra.
Qed.

Lemma decimal_tick_gets_its_precision_witness :
  exists s',
    MarketMakingStrategy.initialize example_params (1 # 100) = Ok s'
    /\ MarketMakingStrategy.precision s' = 2%Z.
Proof.
  destruct (decimal_tick_gets_its_precision example_params (1 # 100) 2)
    as (s' & Hinit & _ & Hp & _).
  - reflexivity.
  - exists s'. split; [exact Hinit | exact Hp].
Defined.

(** X22.  A tick size whose square is at least 10 (3.17 and above) passes
    [initialize] with a negative precision, and every later
    [calculate_prices] raises [ValueError] on the format specification,
    whatever the book. *)
Theorem coarse_tick_cannot_quote (self : MarketMakingStrategy.t) (t : Q) :
  0 < t ->
  10 <= t * t ->
  exists s',
    MarketMakingStrategy.initialize self t = Ok s'
    /\ (MarketMakingStrategy.precision s' < 0)%Z
    /\ forall (ex : exchange) (ps : list pos_info) (ctx : TickContext),
         fetch_positions ex = Ok ps ->
         MarketMakingStrategy.calculate_prices s' ex ctx = Raise ValueError.
Proof.
  intros Ht Hbig.
  destruct (MarketMakingStrategy.initialize self t) as [s'|e] eqn:Hinit.
  - exists s'. split; [reflexivity|].
    destruct (initialize_inv _ _ _ Hinit)
      as (_ & Etick & _ & _ & _ & _ & _ & _ & Hhi).
    assert (Hp : (MarketMakingStrategy.precision s' < 0)%Z).
    { destruct (Z.lt_ge_cases (MarketMakingStrategy.precision s') 0)
        as [H|H]; [exact H|exfalso].
      pose proof (pow10_mono (- (2 * MarketMakingStrategy.precision s' - 1)) 1
                    ltac:(lia)) as Hm.
      change (10 ^ 1) with 10 in Hm. lra. }
    split; [exact Hp|].
    intros ex ps ctx Hps.
    unfold MarketMakingStrategy.calculate_prices. cbv zeta.
    rewrite Hps. cbn [bind].
    rewrite !py_div_nonzero by (rewrite Etick; lra). cbn [bind].
    unfold format_fixed.
    destruct (Z.ltb_spec (MarketMakingStrategy.precision s') 0); [|lia].
    reflexivity.
  - exfalso. unfold MarketMakingStrategy.initialize in Hinit.
    destruct (Qle_bool t 0) eqn:E; [|discriminate].
    apply Qle_bool_iff in E. lra.
Qed.

Lemma coarse_tick_cannot_quote_witness :
  exists s',
    MarketMakingStrategy.initialize example_params 5 = Ok s'
    /\ MarketMakingStrategy.calculate_prices s' quiet_exchange
         (new_context 0 example_bids example_asks 0) = Raise ValueError.
Proof.
  destruct (coarse_tick_cannot_quote example_params 5) as (s' & Hi & _ & Hv).
  - reflexivity.
  - vm_compute. discriminate.
  - exists s'. split; [exact Hi|]. apply (Hv quiet_exchange []). reflexivity.
Defined.

(** ** Parameter calculator *)

Lemma Qeq_bool_false (x : Q) : ~ x == 0 -> Qeq_bool x 0 = false.
Proof.
  intros H. destruct (Qeq_bool x 0) eqn:E; [|reflexivity].
  apply Qeq_bool_iff in E. contradiction.
Qed.



(** X24.  [calculate_half_spread] raises [ZeroDivisionError] exactly when
    [order_qty] or the tick size is zero, and returns otherwise. *)
Theorem half_spread_failure_modes (self : MarketMakerParamCalculatorV2.t) :
  if (Qeq_bool (MarketMakerParamCalculatorV2.order_qty self) 0
      || Qeq_bool
           (MarketMakerParamCalculatorV2.tick_size
              (MarketMakerParamCalculatorV2.market_data self)) 0)%bool
  then MarketMakerParamCalculatorV2.calculate_half_spread self
       = Raise ZeroDivisionError
  else exists hs,
         MarketMakerParamCalculatorV2.calculate_half_spread self = Ok hs.
Proof.
  unfold MarketMakerParamCalculatorV2.calculate_half_spread,
    MarketMakerParamCalculatorV2.min_half_spread. cbv zeta.
  destruct (Qeq_bool (MarketMakerParamCalculatorV2.order_qty self) 0) eqn:Eq.
  - apply Qeq_bool_iff in Eq. unfold py_div at 1.
    assert (E2 : Qeq_bool (2 * MarketMakerParamCalculatorV2.order_qty self) 0
                 = true) by (apply Qeq_bool_iff; lra).
    rewrite E2. reflexivity.
  - assert (Hq : ~ MarketMakerParamCalculatorV2.order_qty self == 0).
    { intros H. apply Qeq_bool_iff in H. congruence. }
    rewrite py_div_nonzero by lra. cbn [bind orb].
    unfold py_div.
    destruct (Qeq_bool
                (MarketMakerParamCalculatorV2.tick_size
                   (MarketMakerParamCalculatorV2.market_data self)) 0);
      cbn [bind]; [reflexivity | eexists; reflexivity].
Qed.

(** X25.  [calculate_c1] raises [ZeroDivisionError] when [alpha_std] is
    zero; for a positive [alpha_std] and a non-negative half spread it
    returns [half_spread * (1 + 1 / alpha_std)], which is never below the
    half spread. *)
Theorem c1_is_at_least_the_half_spread
  (self : MarketMakerParamCalculatorV2.t) (half_spread : Q) :
  (MarketMakerParamCalculatorV2.alpha_std self == 0 ->
   MarketMakerParamCalculatorV2.calculate_c1 self half_spread
   = Raise ZeroDivisionError)
  /\ (0 < MarketMakerParamCalculatorV2.alpha_std self ->
      0 <= half_spread ->
      exists c,
        MarketMakerParamCalculatorV2.calculate_c1 self half_spread = Ok c
        /\ c == half_spread
                + half_spread / MarketMakerParamCalculatorV2.alpha_std self
        /\ half_spread <= c).
Proof.
  unfold MarketMakerParamCalculatorV2.calculate_c1. split.
  - intros H. unfold py_div. apply Qeq_bool_iff in H. rewrite H. reflexivity.
  - intros Ha Hh. rewrite py_div_nonzero by lra. cbn [bind].
    eexists. split; [reflexivity|].
    assert (Hinv : 0 < / MarketMakerParamCalculatorV2.alpha_std self)
      by (apply Qinv_lt_0_compat; exact Ha).
    split; [field; lra|].
    unfold Qdiv. rewrite Qmult_1_l.
    assert (0 <= half_spread * / MarketMakerParamCalculatorV2.alpha_std self)
      by (apply Qmult_le_0_compat; lra).
    lra.
Qed.

Lemma c1_is_at_least_the_half_spread_witness :
  exists c,
    MarketMakerParamCalculatorV2.calculate_c1
      (MarketMakerParamCalculatorV2.mk
         (MarketMakerParamCalculatorV2.mkMarketData 100 101 (2 # 10000)
            (5 # 10000) (1 # 10)) 10 2 (1 # 2)) (1 # 10) = Ok c
    /\ (1 # 10) <= c.
Proof.
  destruct (proj2 (c1_is_at_least_the_half_spread
                     (MarketMakerParamCalculatorV2.mk
                        (MarketMakerParamCalculatorV2.mkMarketData 100 101
                           (2 # 10000) (5 # 10000) (1 # 10)) 10 2 (1 # 2))
                     (1 # 10))) as (c & Hc & _ & Hle).
  - reflexivity.
  - simpl. lra.
  - exists c. split; [exact Hc | exact Hle].
Defined.

(** ** Configuration *)

(** X26.  [from_dict] undoes [to_dict]: whatever the string parsers, every
    configuration is read back unchanged from its own dictionary. *)
Theorem config_round_trip (parse_float : string -> option Q)
  (parse_int : string -> option Z) (py_repr : json -> string)
  (cfg : StrategyConfig.t) :
  StrategyConfig.from_dict parse_float parse_int py_repr
    (StrategyConfig.to_dict cfg) = inr cfg.
Proof.
  destruct cfg. vm_compute. reflexivity.
Qed.

Lemma float_of_never_key_error (parse_float : string -> option Q)
  (v : json) (k : string) :
  StrategyConfig.float_of parse_float v <> inl (KeyError k).
Proof.
  destruct v; cbn; try discriminate.
  destruct (parse_float s); discriminate.
Qed.

Lemma int_of_never_key_error (parse_int : string -> option Z)
  (v : json) (k : string) :
  StrategyConfig.int_of parse_int v <> inl (KeyError k).
Proof.
  destruct v; cbn; try discriminate.
  destruct (parse_int s); discriminate.
Qed.

(** X27.  [from_dict] needs eight keys: when one of [symbol], [order_qty],
    [c1], [half_spread], [skew], [limit], [depth], [window_minutes] is
    missing it fails, and a [KeyError] it raises always names one of these
    eight, missing from the dictionary -- never one of the four optional
    keys. *)
Theorem from_dict_requires_eight_keys (parse_float : string -> option Q)
  (parse_int : string -> option Z) (py_repr : json -> string)
  (data : gmap string json) (k : string) :
  let required :=
    [ "symbol"; "order_qty"; "c1"; "half_spread"; "skew"; "limit"; "depth";
      "window_minutes" ] in
  (In k required -> data !! k = None ->
   exists e,
     StrategyConfig.from_dict parse_float parse_int py_repr data = inl e)
  /\ (StrategyConfig.from_dict parse_float parse_int py_repr data
      = inl (KeyError k) ->
      In k required /\ data !! k = None).
Proof.
  cbv zeta. split.
  - intros Hin Hnone. unfold StrategyConfig.from_dict, StrategyConfig.item.
    cbn [In] in Hin.
    repeat (destruct Hin as [<- | Hin];
            [ rewrite Hnone;
              repeat first
                [ progress cbn [StrategyConfig.cbind];
                  (eexists; reflexivity)
                | match goal with
                  | |- exists e, StrategyConfig.cbind ?r _ = inl e =>
                      destruct r; cbn [StrategyConfig.cbind]
                  end ];
              try (eexists; reflexivity)
            | ]).
    contradiction.
  - unfold StrategyConfig.from_dict, StrategyConfig.item.
    intros H.
    repeat match type of H with
      | StrategyConfig.cbind
          (StrategyConfig.cbind (match ?l with _ => _ end) ?conv) _ = _ =>
          let E := fresh "E" in
          destruct l eqn:E; cbn [StrategyConfig.cbind] in H;
          [ match type of H with
            | StrategyConfig.cbind ?c _ = _ =>
                let C := fresh "C" in
                destruct c eqn:C; cbn [StrategyConfig.cbind] in H;
                [ injection H as ->;
                  first [ apply float_of_never_key_error in C
                        | apply int_of_never_key_error in C ];
                  contradiction
                | ]
            end
          | injection H as <-; split; [cbn; tauto | exact E] ]
      | StrategyConfig.cbind (match ?l with _ => _ end) _ = _ =>
          let E := fresh "E" in
          destruct l eqn:E; cbn [StrategyConfig.cbind] in H;
          [ | injection H as <-; split; [cbn; tauto | exact E] ]
      end.
    cbv zeta in H.
    match type of H with
    | StrategyConfig.cbind ?c _ = _ =>
        let C := fresh "C" in
        destruct c eqn:C; cbn [StrategyConfig.cbind] in H;
        [ injection H as ->; apply float_of_never_key_error in C;
          contradiction
        | discriminate H ]
    end.
Qed.

Lemma from_dict_requires_eight_keys_witness :
  exists e,
    StrategyConfig.from_dict (fun _ => None) (fun _ => None) (fun _ => "")
      {[ "symbol" := JStr "BTC/USDT"; "order_qty" := JFloat 1 ]} = inl e.
Proof.
  refine (proj1 (from_dict_requires_eight_keys (fun _ => None) (fun _ => None)
                   (fun _ => "")
                   {[ "symbol" := JStr "BTC/USDT"; "order_qty" := JFloat 1 ]}
                   "c1") _ _).
  - cbn. tauto.
  - vm_compute. reflexivity.
Defined.

(** X28.  The other four keys are optional: a dictionary that is read
    successfully without them gives [api_key] and [secret] the empty string,
    [price_delta_threshold] 0.5 and [sandbox_mode] [True]. *)
Theorem from_dict_defaults (parse_float : string -> option Q)
  (parse_int : string -> option Z) (py_repr : json -> string)
  (data : gmap string json) (cfg : StrategyConfig.t) :
  StrategyConfig.from_dict parse_float parse_int py_repr data = inr cfg ->
  (data !! "api_key" = None -> StrategyConfig.api_key cfg = "")
  /\ (data !! "secret" = None -> StrategyConfig.secret cfg = "")
  /\ (data !! "price_delta_threshold" = None ->
      StrategyConfig.price_delta_threshold cfg = 1 # 2)
  /\ (data !! "sandbox_mode" = None ->
      StrategyConfig.sandbox_mode cfg = JBool true).
Proof.
  unfold StrategyConfig.from_dict. intros H.
  repeat match type of H with
    | StrategyConfig.cbind ?r _ = _ =>
        destruct r eqn:?; cbn [StrategyConfig.cbind] in H; [discriminate H|]
    end.
  cbv zeta in H. injection H as <-. cbn.
  unfold StrategyConfig.get in *.
  repeat split; intros Hnone; try (rewrite Hnone; reflexivity).
  match goal with
  | E : StrategyConfig.float_of _ (match data !! "price_delta_threshold" with
                                   | _ => _ end) = inr _ |- _ =>
      rewrite Hnone in E; cbn in E; injection E as <-; reflexivity
  end.
Qed.

Lemma from_dict_defaults_witness :
  let data : gmap string json :=
    list_to_map
      [ ("symbol", JStr "BTC/USDT"); ("order_qty", JInt 1);
        ("c1", JFloat 2); ("half_spread", JFloat (1 # 2));
        ("skew", JFloat (1 # 10)); ("limit", JFloat (21 # 2));
        ("depth", JFloat (25 # 1000)); ("window_minutes", JInt 10) ] in
  let cfg :=
    StrategyConfig.mk (JStr "BTC/USDT") 1 2 (1 # 2) (1 # 10) 10 (25 # 1000)
      10 "" "" (1 # 2) (JBool true) in
  StrategyConfig.from_dict (fun _ => None) (fun _ => None) (fun _ => "") data
  = inr cfg
  /\ StrategyConfig.sandbox_mode cfg = JBool true.
Proof.
  intros data cfg.
  assert (H : StrategyConfig.from_dict (fun _ => None) (fun _ => None)
                (fun _ => "") data = inr cfg) by (vm_compute; reflexivity).
  split; [exact H|].
  apply (proj2 (proj2 (proj2 (from_dict_defaults _ _ _ data cfg H)))).
  vm_compute. reflexivity.
Defined.

(** X29.  [PUT /config] replaces the configuration by the fields of the
    request body and, the body having no such field, always sets
    [sandbox_mode] to [True], whatever it was before; the dictionary written
    to the configuration file is the one of the new configuration and the
    response is the body itself.  The conversion never fails on a validated
    body. *)
Theorem update_config_resets_sandbox_mode (parse_float : string -> option Q)
  (parse_int : string -> option Z) (py_repr : json -> string)
  (new_cfg : StrategyConfigModel.t) :
  exists config,
    update_config parse_float parse_int py_repr new_cfg
    = inr (config, StrategyConfig.to_dict config, new_cfg)
    /\ StrategyConfig.sandbox_mode config = JBool true
    /\ StrategyConfig.to_dict config !! "sandbox_mode" = Some (JBool true)
    /\ StrategyConfig.symbol config = JStr (StrategyConfigModel.symbol new_cfg)
    /\ StrategyConfig.order_qty config = StrategyConfigModel.order_qty new_cfg
    /\ StrategyConfig.c1 config = StrategyConfigModel.c1 new_cfg
    /\ StrategyConfig.half_spread config
       = StrategyConfigModel.half_spread new_cfg
    /\ StrategyConfig.skew config = StrategyConfigModel.skew new_cfg
    /\ StrategyConfig.limit config = StrategyConfigModel.limit new_cfg
    /\ StrategyConfig.depth config = StrategyConfigModel.depth new_cfg
    /\ StrategyConfig.window_minutes config
       = StrategyConfigModel.window_minutes new_cfg
    /\ StrategyConfig.api_key config = StrategyConfigModel.api_key new_cfg
    /\ StrategyConfig.secret config = StrategyConfigModel.secret new_cfg
    /\ StrategyConfig.price_delta_threshold config
       = StrategyConfigModel.price_delta_threshold new_cfg.
Proof.
  destruct new_cfg as [symbol order_qty c1 half_spread skew limit depth
                       window_minutes api_key secret price_delta_threshold].
  exists (StrategyConfig.mk (JStr symbol) order_qty c1 half_spread skew limit
            depth window_minutes api_key secret price_delta_threshold
            (JBool true)).
  split; [vm_compute; reflexivity|].
  split; [reflexivity|].
  split; [vm_compute; reflexivity|].
  repeat split.
Qed.
